(** * mcp-weather: the four AccuWeather tools of [main.py]

    A shallow embedding of [main.py] and the properties its specification
    states about it.  Python values coming out of [response.json()] are a
    tagged union [json]; a tool is a computation in a small state-and-error
    monad whose state is the trace of what the call did (the GET requests
    it issued through [httpx] and the [dict.get] look-ups it made) and
    whose errors are the Python exceptions it can raise.

    Strings are [string]s of UTF-8 bytes. *)

From Stdlib Require Import ZArith List String Ascii Bool Lia.
From Stdlib Require Import DecimalString.
Import ListNotations.
Local Open Scope string_scope.
Local Open Scope Z_scope.
Set Warnings "-register-all".

(** ** Text helpers *)

(** [sep.join(parts)] *)
Fixpoint join (sep : string) (parts : list string) : string :=
  match parts with
  | [] => ""
  | [p] => p
  | p :: rest => p ++ sep ++ join sep rest
  end.

(** [c * n] for a one-character string [c] *)
Fixpoint repeat_char (c : ascii) (n : nat) : string :=
  match n with
  | O => ""
  | S n' => String c (repeat_char c n')
  end.

(** [str(z)] for a Python [int] *)
Definition int_str (z : Z) : string :=
  NilZero.string_of_int (Z.to_int z).

(** ** Python floats and their [repr]

    A float is kept as what CPython's [float.__repr__] starts from: the sign
    and the shortest digit string [digits] that reads back as the same
    double, with the position [decpt] of the decimal point (the value is
    [0.digits * 10^decpt]), or an infinity, or a NaN.  [float_repr] is the
    formatting step for format code ['r'] with [Py_DTSF_ADD_DOT_0]
    ([format_float_short] in [Python/pystrtod.c]): exponent notation as soon
    as [decpt <= -4] or [decpt > 16], plain notation otherwise. *)

Inductive pyfloat : Type :=
| FFinite (negative : bool) (digits : string) (decpt : Z)
| FInf (negative : bool)
| FNan.

Definition sign_str (negative : bool) : string :=
  if negative then "-" else "".

Definition zeros (n : Z) : string := repeat_char "0"%char (Z.to_nat n).

(** [strncpy(p, digits, n)] and [digits + n] *)
Fixpoint str_take (n : nat) (s : string) : string :=
  match n, s with
  | S n', String c rest => String c (str_take n' rest)
  | _, _ => ""
  end.

Fixpoint str_drop (n : nat) (s : string) : string :=
  match n, s with
  | S n', String _ rest => str_drop n' rest
  | _, _ => s
  end.

(** The C format ["%+.02d"] used for the exponent. *)
Definition exp_str (e : Z) : string :=
  let a := int_str (Z.abs e) in
  (if e <? 0 then "-" else "+") ++ (if Z.abs e <? 10 then "0" ++ a else a).

(** Digits of the mantissa with the decimal point after [decpt] of them;
    [vdigits_end] is the number of digit positions to fill. *)
Definition place_point (digits : string) (decpt vdigits_end : Z) : string :=
  let digits_len := Z.of_nat (String.length digits) in
  if decpt <=? 0 then
    "0." ++ zeros (- decpt) ++ digits ++ zeros (vdigits_end - digits_len)
  else if decpt <=? digits_len then
    str_take (Z.to_nat decpt) digits ++ "." ++ str_drop (Z.to_nat decpt) digits
      ++ zeros (vdigits_end - digits_len)
  else
    digits ++ zeros (decpt - digits_len) ++ "." ++ zeros (vdigits_end - decpt).

(** "Delete a trailing decimal pt" *)
Fixpoint strip_final_point (s : string) : string :=
  match s with
  | "" => ""
  | String c "" => if Ascii.eqb c "."%char then "" else s
  | String c rest => String c (strip_final_point rest)
  end.

Definition use_exp (decpt : Z) : bool :=
  (decpt <=? -4) || (16 <? decpt).

Definition float_repr (x : pyfloat) : string :=
  match x with
  | FNan => "nan"
  | FInf negative => sign_str negative ++ "inf"
  | FFinite negative digits decpt =>
      let digits_len := Z.of_nat (String.length digits) in
      if use_exp decpt then
        sign_str negative
          ++ strip_final_point (place_point digits 1 (Z.max digits_len 1))
          ++ "e" ++ exp_str (decpt - 1)
      else
        sign_str negative
          ++ strip_final_point
               (place_point digits decpt (Z.max digits_len (decpt + 1)))
  end.

(** [x == 0.0], the only falsy floats *)
Definition float_is_zero (x : pyfloat) : bool :=
  match x with
  | FFinite _ digits _ => String.eqb digits "0"
  | _ => false
  end.

(** ** Python values produced by [response.json()] *)

Inductive json : Type :=
| JNull
| JBool (b : bool)
| JInt (z : Z)
| JFloat (x : pyfloat)
| JStr (s : string)
| JArr (items : list json)
| JObj (members : list (string * json)).

(** The value bound to [key] among the members of a [dict] (a [dict] binds
    a key once; the first binding is the one found). *)
Fixpoint assoc (key : string) (members : list (string * json)) : option json :=
  match members with
  | [] => None
  | (k, v) :: rest => if String.eqb k key then Some v else assoc key rest
  end.

(** *** [repr] of a [str]

    Single quotes unless the text has a single quote and no double quote;
    the quote in use and the backslash are escaped, as are tab, newline,
    carriage return and the other ASCII control characters.  Of the
    non-ASCII characters, the unprintable ones of Latin-1 (U+0080 to
    U+00A0 and U+00AD, two bytes each) are escaped as [\xNN]; the bytes of
    the others are copied (CPython also escapes those that the Unicode
    database classes as unprintable). *)

Fixpoint has_char (c : ascii) (s : string) : bool :=
  match s with
  | "" => false
  | String c' rest => Ascii.eqb c' c || has_char c rest
  end.

Definition hex_digit (n : N) : ascii :=
  match n with
  | 0%N => "0" | 1%N => "1" | 2%N => "2" | 3%N => "3" | 4%N => "4"
  | 5%N => "5" | 6%N => "6" | 7%N => "7" | 8%N => "8" | 9%N => "9"
  | 10%N => "a" | 11%N => "b" | 12%N => "c" | 13%N => "d" | 14%N => "e"
  | _ => "f"
  end%char.

(** [\xNN] for a code point below 256 *)
Definition hex_escape (n : N) : string :=
  "\x" ++ String (hex_digit (n / 16)) (String (hex_digit (n mod 16)) "").

Definition escape_char (quote c : ascii) : string :=
  let n := N_of_ascii c in
  if Ascii.eqb c quote || Ascii.eqb c "\"%char then String "\"%char (String c "")
  else if (n =? 9)%N then "\t"
  else if (n =? 10)%N then "\n"
  else if (n =? 13)%N then "\r"
  else if (n <? 32)%N || (n =? 127)%N then hex_escape n
  else String c "".

(** The two bytes [C2 xx] encode the code point [xx]; those from U+0080 to
    U+00A0 and U+00AD are not printable. *)
Definition latin1_unprintable (lead next : ascii) : bool :=
  let n := N_of_ascii next in
  (N_of_ascii lead =? 194)%N
  && (((128 <=? n)%N && (n <=? 160)%N) || (n =? 173)%N).

Fixpoint escape_all (quote : ascii) (s : string) : string :=
  match s with
  | "" => ""
  | String c rest =>
      match rest with
      | String c' rest' =>
          if latin1_unprintable c c'
          then hex_escape (N_of_ascii c') ++ escape_all quote rest'
          else escape_char quote c ++ escape_all quote rest
      | "" => escape_char quote c
      end
  end.

Definition double_quote : ascii := "034"%char.

Definition str_repr (s : string) : string :=
  let quote :=
    if has_char "'"%char s && negb (has_char double_quote s)
    then double_quote else "'"%char in
  String quote (escape_all quote s) ++ String quote "".

(** *** [repr] and [str] *)

Fixpoint py_repr (v : json) : string :=
  match v with
  | JNull => "None"
  | JBool true => "True"
  | JBool false => "False"
  | JInt z => int_str z
  | JFloat x => float_repr x
  | JStr s => str_repr s
  | JArr items => "[" ++ join ", " (map py_repr items) ++ "]"
  | JObj members =>
      "{" ++ join ", "
               (map (fun '(k, x) => str_repr k ++ ": " ++ py_repr x) members)
          ++ "}"
  end.

(** What an f-string puts for [{v}]: [format(v, "")], that is [str(v)]. *)
Definition py_str (v : json) : string :=
  match v with
  | JStr s => s
  | _ => py_repr v
  end.


(** ** The Python operations [main.py] applies to the parsed data *)

(** [bool(v)], as tested by [if not data] *)
Definition truthy (v : json) : bool :=
  match v with
  | JNull => false
  | JBool b => b
  | JInt z => negb (z =? 0)
  | JFloat x => negb (float_is_zero x)
  | JStr s => negb (String.eqb s "")
  | JArr items => match items with [] => false | _ => true end
  | JObj members => match members with [] => false | _ => true end
  end.

(** A continuation byte of a UTF-8 sequence ([10xxxxxx]). *)
Definition is_continuation (c : ascii) : bool :=
  let n := N_of_ascii c in (128 <=? n)%N && (n <? 192)%N.

Definition starts_with_continuation (s : string) : bool :=
  match s with
  | String c _ => is_continuation c
  | "" => false
  end.

(** The characters of a [str], each with all its bytes. *)
Fixpoint str_chars (s : string) : list string :=
  match s with
  | "" => []
  | String c rest =>
      match str_chars rest with
      | ch :: chars =>
          if starts_with_continuation rest then String c ch :: chars
          else String c "" :: ch :: chars
      | [] => [String c ""]
      end
  end.

(** [s.split(sep)] for a one-character separator: never an empty list. *)
Fixpoint split_char (sep : ascii) (s : string) : list string :=
  match s with
  | "" => [""]
  | String c rest =>
      if Ascii.eqb c sep then "" :: split_char sep rest
      else match split_char sep rest with
           | piece :: pieces => String c piece :: pieces
           | [] => [String c ""]
           end
  end.

(** ** Exceptions, requests and the monad of a tool call *)

Inductive exn : Type :=
| HTTPStatusError (status : Z)   (* [response.raise_for_status()] *)
| TransportError                 (* [httpx] could not get a response *)
| JSONDecodeError                (* [response.json()] on a body that is not JSON *)
| AttributeError                 (* [.get] or [.split] on a value without it *)
| TypeError                      (* subscript or iteration of a scalar *)
| KeyError                       (* [d[0]] on a [dict] *)
| IndexError.                    (* [l[0]] on an empty [list] *)

Inductive result (A : Type) : Type :=
| Ok (a : A)
| Raise (e : exn).
Arguments Ok {A} a.
Arguments Raise {A} e.

(** A query parameter is a [str] or [None] ([os.getenv] of an unset name). *)
Record request : Type := mkRequest {
  url : string;
  params : list (string * option string);
  follow_redirects : bool
}.

(** The final response of a GET; [body] is [None] when the content is not
    valid JSON. *)
Record response : Type := mkResponse {
  status_code : Z;
  body : option json
}.

Inductive reply : Type :=
| Responded (r : response)
| Unreachable.

(** What a call has done so far. *)
Inductive event : Type :=
| HttpGet (r : request)
| FieldGet (key : string).

Definition M (A : Type) : Type := list event -> result A * list event.

Definition ret {A} (a : A) : M A := fun tr => (Ok a, tr).

Definition raise {A} (e : exn) : M A := fun tr => (Raise e, tr).

Definition bind {A B} (m : M A) (k : A -> M B) : M B :=
  fun tr =>
    match m tr with
    | (Ok a, tr') => k a tr'
    | (Raise e, tr') => (Raise e, tr')
    end.

Definition emit (e : event) : M unit := fun tr => (Ok tt, (tr ++ [e])%list).

Declare Scope py_scope.
Delimit Scope py_scope with py.
Notation "x <- m ;; k" := (bind m (fun x => k))
  (at level 100, m at next level, right associativity) : py_scope.
Notation "m ;; k" := (bind m (fun _ => k))
  (at level 100, right associativity) : py_scope.
Local Open Scope py_scope.

(** [for x in xs: f(x)], collecting what [f] returns *)
Fixpoint for_each {A B} (f : A -> M B) (xs : list A) : M (list B) :=
  match xs with
  | [] => ret []
  | x :: rest =>
      y <- f x ;;
      ys <- for_each f rest ;;
      ret (y :: ys)
  end.

(** [v.get(key, default)]: only a [dict] has [get]. *)
Definition dict_get (v : json) (key : string) (default : json) : M json :=
  match v with
  | JObj members =>
      emit (FieldGet key) ;;
      ret (match assoc key members with Some x => x | None => default end)
  | _ => raise AttributeError
  end.

(** [v[0]] *)
Definition subscript0 (v : json) : M json :=
  match v with
  | JArr (x :: _) => ret x
  | JArr [] => raise IndexError
  | JObj _ => raise KeyError
  | JStr s =>
      match str_chars s with
      | ch :: _ => ret (JStr ch)
      | [] => raise IndexError
      end
  | _ => raise TypeError
  end.

(** The items [for day in v] runs over. *)
Definition py_iter (v : json) : M (list json) :=
  match v with
  | JArr items => ret items
  | JObj members => ret (map (fun kv => JStr (fst kv)) members)
  | JStr s => ret (map JStr (str_chars s))
  | _ => raise TypeError
  end.

(** [v.split("T")[0]]: only a [str] has [split]. *)
Definition split_T_first (v : json) : M string :=
  match v with
  | JStr s =>
      match split_char "T"%char s with
      | piece :: _ => ret piece
      | [] => raise IndexError
      end
  | _ => raise AttributeError
  end.

(** [response.raise_for_status()]: anything but a 2xx status raises. *)
Definition is_success (status : Z) : bool :=
  (200 <=? status) && (status <=? 299).

Definition raise_for_status (r : response) : M unit :=
  if is_success (status_code r) then ret tt
  else raise (HTTPStatusError (status_code r)).

(** [response.json()] *)
Definition response_json (r : response) : M json :=
  match body r with
  | Some data => ret data
  | None => raise JSONDecodeError
  end.

(** ** Configuration read from the environment at start-up *)

Record config : Type := mkConfig {
  API_KEY : option string;
  BASE_URL : option string
}.

(** [f"{BASE_URL}"]: an unset variable is [None]. *)
Definition env_str (v : option string) : string :=
  match v with
  | Some s => s
  | None => "None"
  end.

Definition newline : string := String "010"%char "".

(** ** The four tools *)

Section Tools.

Variable cfg : config.
(** The upstream API as seen through the client: the final reply to a
    request. *)
Variable upstream : request -> reply.

(** [async with httpx.AsyncClient(follow_redirects=True) as client:
     response = await client.get(url, params=params)] *)
Definition client_get (u : string) (ps : list (string * option string))
  : M response :=
  let req := mkRequest u ps true in
  emit (HttpGet req) ;;
  match upstream req with
  | Responded r => ret r
  | Unreachable => raise TransportError
  end.

(** The three steps every tool starts with: the GET,
    [response.raise_for_status()] and [data = response.json()]. *)
Definition fetch (u : string) (ps : list (string * option string)) : M json :=
  response <- client_get u ps ;;
  raise_for_status response ;;
  response_json response.

Definition get_location_by_coordinates (latitude longitude : pyfloat)
  : M string :=
  let url := env_str (BASE_URL cfg)
               ++ "/locations/v1/cities/geoposition/search" in
  let params :=
    [("apikey", API_KEY cfg);
     ("q", Some (float_repr latitude ++ "," ++ float_repr longitude))] in
  data <- fetch url params ;;
  location_key <- dict_get data "Key" JNull ;;
  localized_name <- dict_get data "LocalizedName" JNull ;;
  aa <- dict_get data "AdministrativeArea" (JObj []) ;;
  administrative_area <- dict_get aa "LocalizedName" JNull ;;
  c <- dict_get data "Country" (JObj []) ;;
  country <- dict_get c "LocalizedName" JNull ;;
  ret ("Location: " ++ py_str localized_name ++ ", "
         ++ py_str administrative_area ++ ", " ++ py_str country
         ++ ". Key: " ++ py_str location_key).

Definition search_location (query : string) : M string :=
  let url := env_str (BASE_URL cfg) ++ "/locations/v1/cities/search" in
  let params := [("apikey", API_KEY cfg); ("q", Some query)] in
  data <- fetch url params ;;
  if negb (truthy data) then ret "No location found."
  else
    top_match <- subscript0 data ;;
    location_key <- dict_get top_match "Key" JNull ;;
    localized_name <- dict_get top_match "LocalizedName" JNull ;;
    c <- dict_get top_match "Country" (JObj []) ;;
    country <- dict_get c "LocalizedName" JNull ;;
    ret ("Found: " ++ py_str localized_name ++ ", " ++ py_str country
           ++ ". Key: " ++ py_str location_key).

Definition get_current_weather (location_key : string) : M string :=
  let url := env_str (BASE_URL cfg) ++ "/currentconditions/v1/"
               ++ location_key in
  let params := [("apikey", API_KEY cfg)] in
  data <- fetch url params ;;
  if negb (truthy data) then ret "No weather data available."
  else
    weather <- subscript0 data ;;
    weather_text <- dict_get weather "WeatherText" JNull ;;
    t <- dict_get weather "Temperature" (JObj []) ;;
    m <- dict_get t "Metric" (JObj []) ;;
    temp_value <- dict_get m "Value" JNull ;;
    t' <- dict_get weather "Temperature" (JObj []) ;;
    m' <- dict_get t' "Metric" (JObj []) ;;
    temp_unit <- dict_get m' "Unit" JNull ;;
    ret ("Current Weather: " ++ py_str weather_text ++ ", Temperature: "
           ++ py_str temp_value ++ "°" ++ py_str temp_unit).

(** The body of the [for day in ...] loop: the line of one day. *)
Definition forecast_line (day : json) : M string :=
  d <- dict_get day "Date" (JStr "") ;;
  date <- split_T_first d ;;
  t <- dict_get day "Temperature" (JObj []) ;;
  mn <- dict_get t "Minimum" (JObj []) ;;
  min_temp <- dict_get mn "Value" JNull ;;
  t' <- dict_get day "Temperature" (JObj []) ;;
  mx <- dict_get t' "Maximum" (JObj []) ;;
  max_temp <- dict_get mx "Value" JNull ;;
  dy <- dict_get day "Day" (JObj []) ;;
  day_phrase <- dict_get dy "IconPhrase" JNull ;;
  ret ("- " ++ date ++ ": " ++ py_str day_phrase ++ ", Min: "
         ++ py_str min_temp ++ "°C, Max: " ++ py_str max_temp ++ "°C").

Definition get_forecast (location_key : string) (days : Z) : M string :=
  let url := env_str (BASE_URL cfg) ++ "/forecasts/v1/daily/5day/"
               ++ location_key in
  let params := [("apikey", API_KEY cfg); ("metric", Some "true")] in
  data <- fetch url params ;;
  h <- dict_get data "Headline" (JObj []) ;;
  headline <- dict_get h "Text" (JStr "No headline") ;;
  let first := "Forecast Headline: " ++ py_str headline in
  df <- dict_get data "DailyForecasts" (JArr []) ;;
  day_list <- py_iter df ;;
  lines <- for_each forecast_line day_list ;;
  ret (join newline (first :: lines)).

End Tools.

(** The result of a call and the events it adds to an empty trace. *)
Definition outcome {A} (m : M A) : result A := fst (m []).
Definition events {A} (m : M A) : list event := snd (m []).


(** ** Vocabulary of the specification *)

(** The request each tool is specified to send. *)
Definition geoposition_request (cfg : config) (lat lon : pyfloat) : request :=
  mkRequest
    (env_str (BASE_URL cfg) ++ "/locations/v1/cities/geoposition/search")
    [("apikey", API_KEY cfg);
     ("q", Some (float_repr lat ++ "," ++ float_repr lon))]
    true.

Definition search_request (cfg : config) (query : string) : request :=
  mkRequest
    (env_str (BASE_URL cfg) ++ "/locations/v1/cities/search")
    [("apikey", API_KEY cfg); ("q", Some query)]
    true.

Definition conditions_request (cfg : config) (location_key : string)
  : request :=
  mkRequest
    (env_str (BASE_URL cfg) ++ "/currentconditions/v1/" ++ location_key)
    [("apikey", API_KEY cfg)]
    true.

Definition forecast_request (cfg : config) (location_key : string) : request :=
  mkRequest
    (env_str (BASE_URL cfg) ++ "/forecasts/v1/daily/5day/" ++ location_key)
    [("apikey", API_KEY cfg); ("metric", Some "true")]
    true.

(** A 2xx response whose body parses to [data]. *)
Definition answers (upstream : request -> reply) (req : request)
    (status : Z) (data : json) : Prop :=
  upstream req = Responded (mkResponse status (Some data))
  /\ is_success status = true.

(** The GET requests and the field look-ups recorded in a trace. *)
Definition http_gets (tr : list event) : list request :=
  flat_map (fun e => match e with HttpGet r => [r] | FieldGet _ => [] end) tr.

Definition field_gets (tr : list event) : list string :=
  flat_map (fun e => match e with FieldGet k => [k] | HttpGet _ => [] end) tr.

Fixpoint param (name : string) (ps : list (string * option string))
  : option (option string) :=
  match ps with
  | [] => None
  | (k, v) :: rest => if String.eqb k name then Some v else param name rest
  end.

(** The field at the end of a chain of keys, [None] when a key on the way
    is absent or the value there is not an object. *)
Fixpoint path (v : json) (keys : list string) : option json :=
  match keys with
  | [] => Some v
  | k :: rest =>
      match v with
      | JObj members =>
          match assoc k members with
          | Some x => path x rest
          | None => None
          end
      | _ => None
      end
  end.

(** An optional field as the output shows it, [absent] standing for a
    field that is not there. *)
Definition shown_or (absent : string) (field : option json) : string :=
  match field with
  | Some v => py_str v
  | None => absent
  end.

Definition shown : option json -> string := shown_or "None".

(** A nested key is either absent or bound to an object. *)
Definition object_or_absent (members : list (string * json)) (k : string)
  : bool :=
  match assoc k members with
  | None | Some (JObj _) => true
  | Some _ => false
  end.

(** Text before the first ['T'] of a timestamp. *)
Fixpoint before_T (s : string) : string :=
  match s with
  | "" => ""
  | String c rest => if Ascii.eqb c "T"%char then "" else String c (before_T rest)
  end.

(** The expected shapes of the four response bodies: a missing key is
    fine, a nested key that is there is an object, and [Date] is text. *)
Definition location_shape (data : json) : bool :=
  match data with
  | JObj m => object_or_absent m "AdministrativeArea"
              && object_or_absent m "Country"
  | _ => false
  end.

Definition candidate_shape (top_match : json) : bool :=
  match top_match with
  | JObj m => object_or_absent m "Country"
  | _ => false
  end.

Definition conditions_shape (weather : json) : bool :=
  match weather with
  | JObj m =>
      match assoc "Temperature" m with
      | None => true
      | Some (JObj t) => object_or_absent t "Metric"
      | Some _ => false
      end
  | _ => false
  end.

Definition day_shape (day : json) : bool :=
  match day with
  | JObj m =>
      match assoc "Date" m with
      | None | Some (JStr _) => true
      | Some _ => false
      end
      && match assoc "Temperature" m with
         | None => true
         | Some (JObj t) =>
             object_or_absent t "Minimum" && object_or_absent t "Maximum"
         | Some _ => false
         end
      && object_or_absent m "Day"
  | _ => false
  end.

(** The days listed by a forecast body, none when the key is absent. *)
Definition daily_forecasts (members : list (string * json))
  : option (list json) :=
  match assoc "DailyForecasts" members with
  | None => Some []
  | Some (JArr days) => Some days
  | Some _ => None
  end.

Definition forecast_shape (data : json) : bool :=
  match data with
  | JObj m =>
      object_or_absent m "Headline"
      && match daily_forecasts m with
         | Some days => forallb day_shape days
         | None => false
         end
  | _ => false
  end.

(** The texts the four tools are specified to produce. *)
Definition location_text (data : json) : string :=
  "Location: " ++ shown (path data ["LocalizedName"]) ++ ", "
    ++ shown (path data ["AdministrativeArea"; "LocalizedName"]) ++ ", "
    ++ shown (path data ["Country"; "LocalizedName"])
    ++ ". Key: " ++ shown (path data ["Key"]).

Definition candidate_text (top_match : json) : string :=
  "Found: " ++ shown (path top_match ["LocalizedName"]) ++ ", "
    ++ shown (path top_match ["Country"; "LocalizedName"])
    ++ ". Key: " ++ shown (path top_match ["Key"]).

Definition conditions_text (weather : json) : string :=
  "Current Weather: " ++ shown (path weather ["WeatherText"])
    ++ ", Temperature: " ++ shown (path weather ["Temperature"; "Metric"; "Value"])
    ++ "°" ++ shown (path weather ["Temperature"; "Metric"; "Unit"]).

(** The date of a day as the output shows it: the text before the first
    ['T'], [absent] standing for a date that is not there. *)
Definition shown_date_or (absent : string) (field : option json) : string :=
  match field with
  | Some v => before_T (py_str v)
  | None => absent
  end.

(** The forecast texts, for a choice of what stands for an absent headline,
    an absent date and any other absent field. *)
Definition day_text_with (no_date absent : string) (day : json) : string :=
  "- " ++ shown_date_or no_date (path day ["Date"]) ++ ": "
    ++ shown_or absent (path day ["Day"; "IconPhrase"]) ++ ", Min: "
    ++ shown_or absent (path day ["Temperature"; "Minimum"; "Value"])
    ++ "°C, Max: "
    ++ shown_or absent (path day ["Temperature"; "Maximum"; "Value"]) ++ "°C".

Definition headline_text_with (no_headline : string) (data : json) : string :=
  "Forecast Headline: " ++ shown_or no_headline (path data ["Headline"; "Text"]).

Definition forecast_text_with (no_headline no_date absent : string)
    (data : json) (days : list json) : string :=
  join newline
       (headline_text_with no_headline data
          :: map (day_text_with no_date absent) days).

(** What [main.py] puts: "No headline", the empty text, and [None]. *)
Definition day_text : json -> string := day_text_with "" "None".

Definition headline_text : json -> string := headline_text_with "No headline".

Definition forecast_text : json -> list json -> string :=
  forecast_text_with "No headline" "" "None".

(** [line] is the first line of [text]. *)
Definition first_line_is (line text : string) : Prop :=
  text = line \/ exists rest, text = line ++ newline ++ rest.

(** *** Plain decimal notation: an optional minus sign, digits, a point,
    digits. *)
Definition is_digit (c : ascii) : bool :=
  let n := N_of_ascii c in (48 <=? n)%N && (n <=? 57)%N.

Fixpoint all_digits (s : string) : bool :=
  match s with
  | "" => true
  | String c rest => is_digit c && all_digits rest
  end.

Definition digit_run (s : string) : bool :=
  negb (String.eqb s "") && all_digits s.

Definition unsigned (s : string) : string :=
  match s with
  | String c rest => if Ascii.eqb c "-"%char then rest else s
  | "" => s
  end.

Definition plain_decimal (s : string) : bool :=
  match split_char "."%char (unsigned s) with
  | [whole; fraction] => digit_run whole && digit_run fraction
  | _ => false
  end.

(** A float whose [repr] stays out of exponent notation: finite, with
    decimal point position above -4 and at most 16. *)
Definition plain_range (x : pyfloat) : bool :=
  match x with
  | FFinite _ digits decpt => digit_run digits && negb (use_exp decpt)
  | _ => false
  end.

(** A computation that sends no request. *)
Definition quiet {A} (m : M A) : Prop :=
  forall tr, http_gets (snd (m tr)) = http_gets tr.

(** A call that fails with the status of the upstream response. *)
Definition propagates {A} (m : M A) (status : Z) : Prop :=
  outcome m = Raise (HTTPStatusError status)
  /\ forall text, outcome m <> Ok text.

(** ** Further vocabulary: kinds of values *)

Definition is_object (v : json) : bool :=
  match v with
  | JObj _ => true
  | _ => false
  end.

(** The values a [for] loop can run over. *)
Definition iterable (v : json) : bool :=
  match v with
  | JArr _ | JObj _ | JStr _ => true
  | _ => false
  end.

(** A float as [repr] gets it: the digits of a finite one are digits. *)
Definition well_formed_float (x : pyfloat) : bool :=
  match x with
  | FFinite _ digits _ => digit_run digits
  | _ => true
  end.


(** *** The magnitude of a float and the kinds of its rendering *)

Definition digit_value (c : ascii) : Z := Z.of_N (N_of_ascii c) - 48.

Fixpoint digits_value_from (acc : Z) (s : string) : Z :=
  match s with
  | "" => acc
  | String c rest => digits_value_from (10 * acc + digit_value c) rest
  end.

(** The integer a digit string writes. *)
Definition digits_value (s : string) : Z := digits_value_from 0 s.

(** [n * 10^e] compared with [10^b], for exponents of either sign: both
    sides are scaled by the same power of ten, which makes them integers. *)
Definition compare_with_power (n e b : Z) : comparison :=
  let shift := Z.max 0 (Z.max (- e) (- b)) in
  (n * 10 ^ (e + shift)) ?= 10 ^ (b + shift).

Definition below_power (n e b : Z) : bool :=
  match compare_with_power n e b with
  | Lt => true
  | _ => false
  end.

(** The magnitude of a finite float is
    [digits_value digits * 10^(decpt - length digits)]; it is in the plain
    range when it is zero or at least [10^-4] and below [10^16]. *)
Definition magnitude_in_plain_range (x : pyfloat) : bool :=
  match x with
  | FFinite _ digits decpt =>
      let n := digits_value digits in
      let e := decpt - Z.of_nat (String.length digits) in
      (n =? 0) || (negb (below_power n e (-4)) && below_power n e 16)
  | _ => false
  end.

Definition starts_with_zero (s : string) : bool :=
  match s with
  | String c _ => Ascii.eqb c "0"
  | "" => false
  end.

(** The digits of a float as the shortest-digits conversion gives them: for
    zero the one digit 0 with the point after it, otherwise digits that do
    not start with 0. *)
Definition normalised (x : pyfloat) : bool :=
  match x with
  | FFinite _ digits decpt =>
      digit_run digits
      && (if String.eqb digits "0" then decpt =? 1
          else negb (starts_with_zero digits))
  | _ => true
  end.

(** Exponent notation: an optional minus sign, one digit, optionally a
    point and more digits, then [e], a sign and the digits of the
    exponent. *)
Definition mantissa (s : string) : bool :=
  match s with
  | "" => false
  | String c "" => is_digit c
  | String c (String p fraction) =>
      is_digit c && Ascii.eqb p "." && digit_run fraction
  end.

Definition signed_digits (s : string) : bool :=
  match s with
  | "" => false
  | String c ds => (Ascii.eqb c "+" || Ascii.eqb c "-") && digit_run ds
  end.

Definition exponent_notation (s : string) : bool :=
  match split_char "e" (unsigned s) with
  | [m; e] => mantissa m && signed_digits e
  | _ => false
  end.

(** What the rendering of a float is, by its kind and magnitude: plain
    decimal notation in the plain range, exponent notation for any other
    finite float, [inf], [-inf] or [nan] otherwise. *)
Definition notation_follows_magnitude (x : pyfloat) : Prop :=
  match x with
  | FFinite _ _ _ =>
      if magnitude_in_plain_range x
      then plain_decimal (float_repr x) = true
           /\ exponent_notation (float_repr x) = false
      else exponent_notation (float_repr x) = true
           /\ plain_decimal (float_repr x) = false
  | FInf negative => float_repr x = sign_str negative ++ "inf"
  | FNan => float_repr x = "nan"
  end.

(** ** Sample data *)

(** A forecast body whose headline is null and which lists no day. *)
Definition null_headline_forecast : json :=
  JObj [("Headline", JNull); ("DailyForecasts", JArr [])].


Definition sample_cfg : config :=
  mkConfig (Some "secret") (Some "https://dataservice.accuweather.com").

Definition jakarta : json :=
  JObj [("Key", JStr "208971");
        ("LocalizedName", JStr "Jakarta");
        ("Country", JObj [("LocalizedName", JStr "Indonesia")])].

Definition jakarta_ohio : json :=
  JObj [("Key", JStr "2133923");
        ("LocalizedName", JStr "Jakarta");
        ("Country", JObj [("LocalizedName", JStr "United States")])].

(** A forecast body whose only day has no field at all. *)
Definition bare_forecast : json :=
  JObj [("DailyForecasts", JArr [JObj []])].

(** An upstream that gives every request the same answer. *)
Definition always (status : Z) (data : json) : request -> reply :=
  fun _ => Responded (mkResponse status (Some data)).

(** * Properties *)

(** ** Text *)

Lemma length_append (s t : string) :
  String.length (s ++ t) = (String.length s + String.length t)%nat.
Proof. induction s as [ | c s IH]; cbn; [reflexivity | now rewrite IH]. Qed.

Lemma append_assoc (s t u : string) : (s ++ t) ++ u = s ++ t ++ u.
Proof. induction s as [ | c s IH]; cbn; [reflexivity | now rewrite IH]. Qed.

(** ** Running the monad *)

Lemma http_gets_app (tr tr' : list event) :
  http_gets (tr ++ tr') = (http_gets tr ++ http_gets tr')%list.
Proof. unfold http_gets. apply flat_map_app. Qed.

Lemma field_gets_app (tr tr' : list event) :
  field_gets (tr ++ tr') = (field_gets tr ++ field_gets tr')%list.
Proof. unfold field_gets. apply flat_map_app. Qed.

Lemma quiet_ret {A} (a : A) : quiet (ret a).
Proof. intro tr. reflexivity. Qed.

Lemma quiet_raise {A} (e : exn) : quiet (@raise A e).
Proof. intro tr. reflexivity. Qed.

Lemma quiet_bind {A B} (m : M A) (k : A -> M B) :
  quiet m -> (forall a, quiet (k a)) -> quiet (bind m k).
Proof.
  intros Hm Hk tr. unfold bind.
  specialize (Hm tr). destruct (m tr) as [[a | e] tr']; simpl in *.
  - rewrite Hk. exact Hm.
  - exact Hm.
Qed.

Lemma quiet_dict_get (v : json) (key : string) (default : json) :
  quiet (dict_get v key default).
Proof.
  intro tr. destruct v; try reflexivity.
  cbn. rewrite http_gets_app. cbn. apply app_nil_r.
Qed.

Lemma quiet_subscript0 (v : json) : quiet (subscript0 v).
Proof.
  intro tr. destruct v as [ | | | | s | [ | x items] | ]; try reflexivity.
  cbn. destruct (str_chars s); reflexivity.
Qed.

Lemma quiet_py_iter (v : json) : quiet (py_iter v).
Proof. intro tr. destruct v; reflexivity. Qed.

Lemma quiet_split_T_first (v : json) : quiet (split_T_first v).
Proof.
  intro tr. destruct v; try reflexivity.
  cbn. destruct (split_char "T" s); reflexivity.
Qed.

Lemma quiet_for_each {A B} (f : A -> M B) (xs : list A) :
  (forall x, quiet (f x)) -> quiet (for_each f xs).
Proof.
  intro Hf. induction xs as [ | x rest IH]; cbn.
  - apply quiet_ret.
  - apply quiet_bind; [apply Hf | intro y].
    apply quiet_bind; [exact IH | intro ys]. apply quiet_ret.
Qed.

Create HintDb quiet.
#[local] Hint Resolve quiet_ret quiet_raise quiet_dict_get quiet_subscript0
  quiet_py_iter quiet_split_T_first : quiet.

Ltac quiet_steps :=
  repeat first
    [ apply quiet_bind; [ solve [auto with quiet] | intro ]
    | solve [auto with quiet] ].

Lemma quiet_forecast_line (day : json) : quiet (forecast_line day).
Proof. unfold forecast_line. quiet_steps. Qed.

Lemma bind_ok {A B} (m : M A) (k : A -> M B) (tr tr' : list event) (a : A) :
  m tr = (Ok a, tr') -> bind m k tr = k a tr'.
Proof. intro H. unfold bind. rewrite H. reflexivity. Qed.

Lemma bind_raise {A B} (m : M A) (k : A -> M B) (tr tr' : list event)
    (e : exn) :
  m tr = (Raise e, tr') -> bind m k tr = (Raise e, tr').
Proof. intro H. unfold bind. rewrite H. reflexivity. Qed.

Lemma dict_get_obj (m : list (string * json)) (key : string) (default : json)
    (tr : list event) :
  dict_get (JObj m) key default tr
  = (Ok (match assoc key m with Some x => x | None => default end),
     (tr ++ [FieldGet key])%list).
Proof. reflexivity. Qed.

(** Case analysis on every field looked up in the goal. *)
Ltac case_fields :=
  repeat match goal with
         | |- context [assoc ?k ?m] => destruct (assoc k m)
         end.

(** ** The request-response step shared by the four tools *)

Section Fetch.

Variable upstream : request -> reply.
Variables (u : string) (ps : list (string * option string)).
Let req := mkRequest u ps true.

Lemma fetch_sends_one (tr : list event) :
  snd (fetch upstream u ps tr) = (tr ++ [HttpGet req])%list.
Proof.
  unfold fetch, client_get, bind, emit; cbn. fold req.
  destruct (upstream req) as [r | ]; cbn; [ | reflexivity].
  unfold raise_for_status.
  destruct (is_success (status_code r)); cbn; [ | reflexivity].
  unfold response_json. destruct (body r); reflexivity.
Qed.

Lemma fetch_answered (status : Z) (data : json) (tr : list event) :
  answers upstream req status data ->
  fetch upstream u ps tr = (Ok data, (tr ++ [HttpGet req])%list).
Proof.
  intros [Hup Hok].
  unfold fetch, client_get, bind, emit; cbn. fold req. rewrite Hup. cbn.
  unfold raise_for_status; cbn. rewrite Hok. reflexivity.
Qed.

Lemma fetch_refused (r : response) (tr : list event) :
  upstream req = Responded r ->
  is_success (status_code r) = false ->
  fetch upstream u ps tr
  = (Raise (HTTPStatusError (status_code r)), (tr ++ [HttpGet req])%list).
Proof.
  intros Hup Hbad.
  unfold fetch, client_get, bind, emit; cbn. fold req. rewrite Hup. cbn.
  unfold raise_for_status. rewrite Hbad. reflexivity.
Qed.

(** Whatever is done with the data, a refused request ends the call. *)
Lemma refused_propagates {A} (k : json -> M A) (r : response) :
  upstream req = Responded r ->
  is_success (status_code r) = false ->
  propagates (bind (fetch upstream u ps) k) (status_code r).
Proof.
  intros Hup Hbad.
  assert (H : outcome (bind (fetch upstream u ps) k)
              = Raise (HTTPStatusError (status_code r))).
  { unfold outcome, bind. rewrite (fetch_refused r) by assumption.
    reflexivity. }
  split; [exact H | ]. intros text Htext. rewrite H in Htext. discriminate.
Qed.

(** A tool that only reads its data sends the one request of [fetch]. *)
Lemma one_request {A} (k : json -> M A) :
  (forall data, quiet (k data)) ->
  http_gets (events (bind (fetch upstream u ps) k)) = [req].
Proof.
  intro Hk. unfold events, bind.
  pose proof (fetch_sends_one []) as Hsnd.
  destruct (fetch upstream u ps []) as [[data | e] tr']; cbn in Hsnd; subst tr'.
  - rewrite Hk. reflexivity.
  - reflexivity.
Qed.

End Fetch.

(** ** Upstream failures *)

(** C1.  On each of the four tools, a response whose status is not 2xx makes
    the call fail with [HTTPStatusError] carrying that status; the call
    returns no text. *)
Theorem non_2xx_status_is_propagated :
  forall (cfg : config) (upstream : request -> reply) (r : response),
    is_success (status_code r) = false ->
    (forall lat lon,
        upstream (geoposition_request cfg lat lon) = Responded r ->
        propagates (get_location_by_coordinates cfg upstream lat lon)
                   (status_code r))
    /\ (forall query,
           upstream (search_request cfg query) = Responded r ->
           propagates (search_location cfg upstream query) (status_code r))
    /\ (forall location_key,
           upstream (conditions_request cfg location_key) = Responded r ->
           propagates (get_current_weather cfg upstream location_key)
                      (status_code r))
    /\ (forall location_key days,
           upstream (forecast_request cfg location_key) = Responded r ->
           propagates (get_forecast cfg upstream location_key days)
                      (status_code r)).
Proof.
  intros cfg upstream r Hbad.
  repeat split; intros;
    match goal with
    | H : upstream _ = Responded r |- _ =>
        first [ exact (proj1 (refused_propagates upstream _ _ _ r H Hbad))
              | exact (proj2 (refused_propagates upstream _ _ _ r H Hbad) _) ]
    end.
Qed.

Lemma non_2xx_status_is_propagated_witness :
  is_success 404 = false
  /\ propagates
       (get_forecast sample_cfg (fun _ => Responded (mkResponse 404 None))
                     "349727" 5)
       404.
Proof.
  split; [reflexivity | ].
  apply (non_2xx_status_is_propagated sample_cfg
           (fun _ => Responded (mkResponse 404 None)) (mkResponse 404 None)
           eq_refl).
  reflexivity.
Defined.

(** ** Empty results *)

(** C2.  When the upstream answers 2xx with the empty array,
    [search_location] returns the text "No location found." and
    [get_current_weather] returns "No weather data available."; both are
    returned values, not raised errors, and no field was looked up. *)
Theorem empty_array_is_a_textual_result :
  forall (cfg : config) (upstream : request -> reply) (status : Z),
    (forall query,
        answers upstream (search_request cfg query) status (JArr []) ->
        outcome (search_location cfg upstream query) = Ok "No location found."
        /\ field_gets (events (search_location cfg upstream query)) = [])
    /\ (forall location_key,
           answers upstream (conditions_request cfg location_key) status
                   (JArr []) ->
           outcome (get_current_weather cfg upstream location_key)
           = Ok "No weather data available."
           /\ field_gets (events (get_current_weather cfg upstream location_key))
              = []).
Proof.
  intros cfg upstream status. split.
  - intros query H.
    unfold outcome, events, search_location, bind.
    rewrite (fetch_answered _ _ _ status (JArr [])) by exact H.
    cbn. split; reflexivity.
  - intros location_key H.
    unfold outcome, events, get_current_weather, bind.
    rewrite (fetch_answered _ _ _ status (JArr [])) by exact H.
    cbn. split; reflexivity.
Qed.

Lemma empty_array_is_a_textual_result_witness :
  outcome (search_location sample_cfg (always 200 (JArr [])) "Atlantis")
  = Ok "No location found."
  /\ outcome (get_current_weather sample_cfg (always 200 (JArr [])) "349727")
     = Ok "No weather data available.".
Proof.
  destruct (empty_array_is_a_textual_result
              sample_cfg (always 200 (JArr [])) 200) as [Hsearch Hcond].
  split.
  - apply Hsearch. split; reflexivity.
  - apply Hcond. split; reflexivity.
Defined.

(** ** The forecast request *)

(** C3.  [get_forecast] does not look at [days]: for any two values the
    computation is the same, and it sends exactly one request, to
    [/forecasts/v1/daily/5day/{location_key}] with [metric=true]. *)
Theorem forecast_ignores_days :
  forall (cfg : config) (upstream : request -> reply)
         (location_key : string) (days days' : Z),
    get_forecast cfg upstream location_key days
    = get_forecast cfg upstream location_key days'
    /\ http_gets (events (get_forecast cfg upstream location_key days))
       = [forecast_request cfg location_key]
    /\ url (forecast_request cfg location_key)
       = env_str (BASE_URL cfg) ++ "/forecasts/v1/daily/5day/" ++ location_key
    /\ param "metric" (params (forecast_request cfg location_key))
       = Some (Some "true").
Proof.
  intros cfg upstream location_key days days'.
  split; [reflexivity | ]. split; [ | split; reflexivity].
  unfold get_forecast.
  apply (one_request upstream). intro data.
  quiet_steps.
  apply quiet_bind; [ | intro; apply quiet_ret].
  apply quiet_for_each. exact quiet_forecast_line.
Qed.

(** ** The best match of a search *)

Lemma search_location_answered (cfg : config) (upstream : request -> reply)
    (query : string) (status : Z) (top_match : json) (later : list json) :
  answers upstream (search_request cfg query) status (JArr (top_match :: later)) ->
  outcome (search_location cfg upstream query)
  = fst ((location_key <- dict_get top_match "Key" JNull ;;
          localized_name <- dict_get top_match "LocalizedName" JNull ;;
          c <- dict_get top_match "Country" (JObj []) ;;
          country <- dict_get c "LocalizedName" JNull ;;
          ret ("Found: " ++ py_str localized_name ++ ", " ++ py_str country
                 ++ ". Key: " ++ py_str location_key))%py
           [HttpGet (search_request cfg query)]).
Proof.
  intro H. unfold outcome, search_location.
  unfold bind at 1.
  rewrite (fetch_answered _ _ _ status (JArr (top_match :: later))) by exact H.
  reflexivity.
Qed.

Lemma candidate_shape_text (top_match : json) (tr : list event) :
  candidate_shape top_match = true ->
  fst ((location_key <- dict_get top_match "Key" JNull ;;
        localized_name <- dict_get top_match "LocalizedName" JNull ;;
        c <- dict_get top_match "Country" (JObj []) ;;
        country <- dict_get c "LocalizedName" JNull ;;
        ret ("Found: " ++ py_str localized_name ++ ", " ++ py_str country
               ++ ". Key: " ++ py_str location_key))%py tr)
  = Ok (candidate_text top_match).
Proof.
  destruct top_match as [ | | | | | | m]; try discriminate.
  unfold candidate_shape, object_or_absent, candidate_text.
  cbn [path]. unfold bind, dict_get. cbn.
  destruct (assoc "Country" m) as [[ | | | | | | c] | ]; try discriminate;
    intros _; cbn; case_fields; reflexivity.
Qed.

(** C4.  On a non-empty array of candidates [search_location] reads element
    0 only: two responses that agree on it give the same result whatever
    follows it, and a well-shaped first candidate gives the text made of
    its own [LocalizedName], [Country.LocalizedName] and [Key]. *)
Theorem search_reads_first_candidate_only :
  forall (cfg : config) (upstream upstream' : request -> reply)
         (query : string) (status status' : Z)
         (top_match : json) (later later' : list json),
    answers upstream (search_request cfg query) status
            (JArr (top_match :: later)) ->
    answers upstream' (search_request cfg query) status'
            (JArr (top_match :: later')) ->
    outcome (search_location cfg upstream query)
    = outcome (search_location cfg upstream' query)
    /\ (candidate_shape top_match = true ->
        outcome (search_location cfg upstream query)
        = Ok (candidate_text top_match)).
Proof.
  intros cfg upstream upstream' query status status' top_match later later'
         H H'.
  rewrite (search_location_answered _ _ _ _ _ _ H).
  rewrite (search_location_answered _ _ _ _ _ _ H').
  split; [reflexivity | apply candidate_shape_text].
Qed.

Lemma search_reads_first_candidate_only_witness :
  outcome (search_location sample_cfg
             (always 200 (JArr [jakarta; jakarta_ohio])) "Jakarta")
  = outcome (search_location sample_cfg (always 200 (JArr [jakarta])) "Jakarta")
  /\ (candidate_shape jakarta = true ->
      outcome (search_location sample_cfg
                 (always 200 (JArr [jakarta; jakarta_ohio])) "Jakarta")
      = Ok (candidate_text jakarta)).
Proof.
  apply (search_reads_first_candidate_only sample_cfg
           (always 200 (JArr [jakarta; jakarta_ohio]))
           (always 200 (JArr [jakarta])) "Jakarta" 200 200
           jakarta [jakarta_ohio] []);
    split; reflexivity.
Defined.

(** ** Date extraction *)

Lemma split_char_T_head (s : string) :
  exists pieces, split_char "T" s = before_T s :: pieces.
Proof.
  induction s as [ | c rest [pieces IH]]; cbn.
  - exists []. reflexivity.
  - destruct (Ascii.eqb c "T").
    + eexists. reflexivity.
    + rewrite IH. eexists. reflexivity.
Qed.






(** ** Reading the fields of a well-shaped response *)

Lemma answered_outcome {A} (upstream : request -> reply) (u : string)
    (ps : list (string * option string)) (status : Z) (data : json)
    (k : json -> M A) :
  answers upstream (mkRequest u ps true) status data ->
  outcome (bind (fetch upstream u ps) k)
  = fst (k data [HttpGet (mkRequest u ps true)]).
Proof.
  intro H. unfold outcome, bind.
  rewrite (fetch_answered _ _ _ status data) by exact H. reflexivity.
Qed.

(** Case analysis on a nested key that the shape in the goal constrains. *)
Ltac case_nested k m :=
  destruct (assoc k m) as [[ | | | | | | ] | ]; cbn; try discriminate.

Lemma location_shape_text (cfg : config) (upstream : request -> reply)
    (lat lon : pyfloat) (status : Z) (data : json) :
  answers upstream (geoposition_request cfg lat lon) status data ->
  location_shape data = true ->
  outcome (get_location_by_coordinates cfg upstream lat lon)
  = Ok (location_text data).
Proof.
  intro H. unfold get_location_by_coordinates.
  rewrite (answered_outcome upstream _ _ status data _ H).
  destruct data as [ | | | | | | m]; try discriminate.
  unfold location_shape, object_or_absent, location_text, bind, dict_get.
  cbn.
  case_nested "AdministrativeArea" m; case_nested "Country" m;
    intros _; case_fields; reflexivity.
Qed.

Lemma conditions_shape_text (cfg : config) (upstream : request -> reply)
    (location_key : string) (status : Z) (weather : json)
    (later : list json) :
  answers upstream (conditions_request cfg location_key) status
          (JArr (weather :: later)) ->
  conditions_shape weather = true ->
  outcome (get_current_weather cfg upstream location_key)
  = Ok (conditions_text weather).
Proof.
  intro H. unfold get_current_weather.
  rewrite (answered_outcome upstream _ _ status _ _ H).
  destruct weather as [ | | | | | | m]; try discriminate.
  unfold conditions_shape, object_or_absent, conditions_text, bind, dict_get.
  cbn.
  destruct (assoc "Temperature" m) as [[ | | | | | | t] | ]; cbn;
    try discriminate.
  - case_nested "Metric" t; intros _; case_fields; reflexivity.
  - intros _; case_fields; reflexivity.
Qed.

Lemma forecast_line_shape (day : json) (tr : list event) :
  day_shape day = true ->
  exists tr', forecast_line day tr = (Ok (day_text day), tr').
Proof.
  destruct day as [ | | | | | | m]; try discriminate.
  unfold day_shape, object_or_absent, forecast_line, day_text, day_text_with,
    shown_date_or, bind, dict_get.
  cbn.
  destruct (assoc "Date" m) as [[ | | | | s | | ] | ]; cbn; try discriminate;
    [ destruct (split_char_T_head s) as [pieces ->] | ]; cbn;
    (destruct (assoc "Temperature" m) as [[ | | | | | | t] | ]; cbn;
     try discriminate;
     [ case_nested "Minimum" t; case_nested "Maximum" t | ];
     case_nested "Day" m; intros _; case_fields; eexists; reflexivity).
Qed.

Lemma for_each_forecast_lines (days : list json) (tr : list event) :
  forallb day_shape days = true ->
  exists tr',
    for_each forecast_line days tr = (Ok (map day_text days), tr').
Proof.
  revert tr. induction days as [ | day rest IH]; intros tr Hall; cbn.
  - eexists. reflexivity.
  - cbn in Hall. apply andb_true_iff in Hall as [Hday Hrest].
    unfold bind at 1.
    destruct (forecast_line_shape day tr Hday) as [tr1 ->].
    unfold bind at 1.
    destruct (IH tr1 Hrest) as [tr2 ->].
    eexists. reflexivity.
Qed.

Lemma forecast_shape_text (cfg : config) (upstream : request -> reply)
    (location_key : string) (days : Z) (status : Z)
    (m : list (string * json)) (ds : list json) :
  answers upstream (forecast_request cfg location_key) status (JObj m) ->
  forecast_shape (JObj m) = true ->
  daily_forecasts m = Some ds ->
  outcome (get_forecast cfg upstream location_key days)
  = Ok (forecast_text (JObj m) ds).
Proof.
  intros H Hshape Hds. unfold get_forecast.
  rewrite (answered_outcome upstream _ _ status _ _ H).
  unfold forecast_shape in Hshape. rewrite Hds in Hshape.
  apply andb_true_iff in Hshape as [Hhead Hdays].
  unfold object_or_absent in Hhead.
  unfold forecast_text, forecast_text_with, headline_text_with.
  cbn [path].
  erewrite bind_ok by apply dict_get_obj.
  destruct (assoc "Headline" m) as [[ | | | | | | h] | ]; try discriminate;
    (erewrite bind_ok by apply dict_get_obj);
    (erewrite bind_ok by apply dict_get_obj);
    unfold daily_forecasts in Hds;
    (destruct (assoc "DailyForecasts" m) as [[ | | | | | items | ] | ];
     try discriminate; injection Hds as <-);
    (erewrite bind_ok by reflexivity);
    match goal with
    | |- fst (bind (for_each forecast_line ?l) _ ?tr) = _ =>
        destruct (for_each_forecast_lines l tr Hdays) as [tr' E]
    end;
    (erewrite bind_ok by exact E);
    cbn [ret fst assoc]; unfold shown_or; case_fields; reflexivity.
Qed.

(** ** The headline of a forecast *)

Lemma bind_ok_inv {A B} (m : M A) (k : A -> M B) (tr : list event) (b : B) :
  fst (bind m k tr) = Ok b ->
  exists a tr', m tr = (Ok a, tr') /\ fst (k a tr') = Ok b.
Proof.
  unfold bind. destruct (m tr) as [[a | e] tr']; cbn; intro H.
  - exists a, tr'. split; [reflexivity | exact H].
  - discriminate.
Qed.

Lemma join_first_line (line : string) (lines : list string) :
  first_line_is line (join newline (line :: lines)).
Proof.
  destruct lines as [ | l rest].
  - left. reflexivity.
  - right. exists (join newline (l :: rest)). reflexivity.
Qed.

Lemma forecast_first_line (cfg : config) (upstream : request -> reply)
    (location_key : string) (days : Z) (status : Z)
    (m : list (string * json)) (text : string) :
  answers upstream (forecast_request cfg location_key) status (JObj m) ->
  outcome (get_forecast cfg upstream location_key days) = Ok text ->
  first_line_is (headline_text (JObj m)) text.
Proof.
  intro H. unfold get_forecast.
  rewrite (answered_outcome upstream _ _ status _ _ H).
  unfold headline_text, headline_text_with. cbn [path].
  erewrite bind_ok by apply dict_get_obj.
  destruct (assoc "Headline" m) as [[ | | | | | | h] | ];
    try (intro Hraise; discriminate Hraise);
    (erewrite bind_ok by apply dict_get_obj);
    intro Hok;
    apply bind_ok_inv in Hok as (df & tr1 & _ & Hok);
    apply bind_ok_inv in Hok as (day_list & tr2 & _ & Hok);
    apply bind_ok_inv in Hok as (lines & tr3 & _ & Hok);
    cbn in Hok; injection Hok as <-.
  - replace (shown_or "No headline"
               match assoc "Text" h with Some x => Some x | None => None end)
      with (py_str match assoc "Text" h with
                   | Some x => x
                   | None => JStr "No headline"
                   end)
      by (destruct (assoc "Text" h); reflexivity).
    apply join_first_line.
  - apply join_first_line.
Qed.

(** Against C5 as stated: a 2xx JSON object with [Headline] bound to null
    and no day gives no headline line, the call raises at
    [data.get("Headline", {}).get(...)]. *)
Lemma null_headline_leaves_no_headline_line :
  answers (always 200 null_headline_forecast)
          (forecast_request sample_cfg "208971") 200 null_headline_forecast
  /\ outcome (get_forecast sample_cfg (always 200 null_headline_forecast)
                           "208971" 5)
     = Raise AttributeError
  /\ ~ exists text,
         outcome (get_forecast sample_cfg (always 200 null_headline_forecast)
                               "208971" 5)
         = Ok text.
Proof.
  split; [split; reflexivity | ]. split; [reflexivity | ].
  intros [text Htext]. discriminate Htext.
Qed.

(** C5, as the code has it.  For a 2xx forecast response whose body is a
    JSON object, any text the tool returns starts with the headline line;
    a body of the expected shape ([Headline] absent or an object,
    [DailyForecasts] absent or an array of well-shaped days) does return a
    text, which is the headline line alone when there is no day; and
    without [Headline.Text] the headline line is
    "Forecast Headline: No headline". *)
Theorem forecast_headline_comes_first :
  forall (cfg : config) (upstream : request -> reply)
         (location_key : string) (days status : Z)
         (m : list (string * json)),
    answers upstream (forecast_request cfg location_key) status (JObj m) ->
    (forall text,
        outcome (get_forecast cfg upstream location_key days) = Ok text ->
        first_line_is (headline_text (JObj m)) text)
    /\ (forecast_shape (JObj m) = true ->
        exists text,
          outcome (get_forecast cfg upstream location_key days) = Ok text
          /\ first_line_is (headline_text (JObj m)) text)
    /\ (forecast_shape (JObj m) = true ->
        daily_forecasts m = Some [] ->
        outcome (get_forecast cfg upstream location_key days)
        = Ok (headline_text (JObj m)))
    /\ (path (JObj m) ["Headline"; "Text"] = None ->
        headline_text (JObj m) = "Forecast Headline: No headline").
Proof.
  intros cfg upstream location_key days status m H.
  split; [ | split; [ | split]].
  - intros text Hok. exact (forecast_first_line _ _ _ _ _ _ _ H Hok).
  - intro Hshape.
    destruct (daily_forecasts m) as [ds | ] eqn:Hds.
    + exists (forecast_text (JObj m) ds). split.
      * exact (forecast_shape_text _ _ _ _ _ _ _ H Hshape Hds).
      * apply join_first_line.
    + unfold forecast_shape in Hshape. rewrite Hds in Hshape.
      rewrite andb_false_r in Hshape. discriminate.
  - intros Hshape Hds.
    exact (forecast_shape_text _ _ _ _ _ _ _ H Hshape Hds).
  - intro Habsent. unfold headline_text, headline_text_with.
    rewrite Habsent. reflexivity.
Qed.

Lemma forecast_headline_comes_first_witness :
  outcome (get_forecast sample_cfg (always 200 (JObj [])) "208971" 5)
  = Ok "Forecast Headline: No headline".
Proof.
  apply (forecast_headline_comes_first sample_cfg (always 200 (JObj []))
           "208971" 5 200 []).
  - split; reflexivity.
  - reflexivity.
  - reflexivity.
Defined.

(** ** Keys bound to null *)

(** C9.  A key that is present but bound to null is not tolerated the way a
    missing key is: when [AdministrativeArea] is null in the geoposition
    response, or [Temperature] is null in the first element of the
    conditions response, the call raises [AttributeError]. *)
Theorem null_nested_object_raises :
  forall (cfg : config) (upstream : request -> reply) (status : Z),
    (forall lat lon m,
        answers upstream (geoposition_request cfg lat lon) status (JObj m) ->
        assoc "AdministrativeArea" m = Some JNull ->
        outcome (get_location_by_coordinates cfg upstream lat lon)
        = Raise AttributeError)
    /\ (forall location_key m later,
           answers upstream (conditions_request cfg location_key) status
                   (JArr (JObj m :: later)) ->
           assoc "Temperature" m = Some JNull ->
           outcome (get_current_weather cfg upstream location_key)
           = Raise AttributeError).
Proof.
  intros cfg upstream status. split.
  - intros lat lon m H Hnull. unfold get_location_by_coordinates.
    rewrite (answered_outcome upstream _ _ status _ _ H).
    do 3 (erewrite bind_ok by apply dict_get_obj).
    rewrite Hnull. reflexivity.
  - intros location_key m later H Hnull. unfold get_current_weather.
    rewrite (answered_outcome upstream _ _ status _ _ H).
    cbn [truthy negb]. erewrite bind_ok by reflexivity.
    do 2 (erewrite bind_ok by apply dict_get_obj).
    rewrite Hnull. reflexivity.
Qed.

Lemma null_nested_object_raises_witness :
  outcome (get_location_by_coordinates sample_cfg
             (always 200 (JObj [("Key", JStr "208971");
                                ("AdministrativeArea", JNull)]))
             (FFinite true "62" 1) (FFinite false "1068" 3))
  = Raise AttributeError.
Proof.
  apply (proj1 (null_nested_object_raises sample_cfg
                  (always 200 (JObj [("Key", JStr "208971");
                                     ("AdministrativeArea", JNull)])) 200)
           (FFinite true "62" 1) (FFinite false "1068" 3)
           [("Key", JStr "208971"); ("AdministrativeArea", JNull)]).
  - split; reflexivity.
  - reflexivity.
Defined.

(** ** Absent fields *)

(** Against C6 as stated: there is no one placeholder.
    In the line of a day, a missing [Date] shows as the empty text while
    the other missing fields show as [None]: no single placeholder
    accounts for the output of [get_forecast] on a day without fields. *)
Lemma forecast_placeholders_are_not_uniform :
  outcome (get_forecast sample_cfg (always 200 bare_forecast) "208971" 5)
  = Ok ("Forecast Headline: No headline" ++ newline
          ++ "- : None, Min: None°C, Max: None°C")
  /\ ~ exists placeholder : string,
         outcome (get_forecast sample_cfg (always 200 bare_forecast)
                               "208971" 5)
         = Ok (forecast_text_with placeholder placeholder placeholder
                                  bare_forecast [JObj []]).
Proof.
  split; [reflexivity | ].
  intros [p Hp].
  apply (f_equal (fun r => match r with
                           | Ok text => String.length text
                           | Raise _ => O
                           end)) in Hp.
  cbn in Hp.
  repeat (rewrite length_append in Hp; cbn in Hp).
  lia.
Qed.

(** C6, as the code has it.  On a response of the expected shape each of
    the four tools returns its text, a missing field never raising: every
    missing field shows as [None], except the [Date] of a forecast day,
    which shows as the empty text, and [Headline.Text], which shows as
    "No headline". *)
Theorem absent_fields_render_as_placeholders :
  forall (cfg : config) (upstream : request -> reply) (status : Z),
    (forall lat lon data,
        answers upstream (geoposition_request cfg lat lon) status data ->
        location_shape data = true ->
        outcome (get_location_by_coordinates cfg upstream lat lon)
        = Ok (location_text data))
    /\ (forall query top_match later,
           answers upstream (search_request cfg query) status
                   (JArr (top_match :: later)) ->
           candidate_shape top_match = true ->
           outcome (search_location cfg upstream query)
           = Ok (candidate_text top_match))
    /\ (forall location_key weather later,
           answers upstream (conditions_request cfg location_key) status
                   (JArr (weather :: later)) ->
           conditions_shape weather = true ->
           outcome (get_current_weather cfg upstream location_key)
           = Ok (conditions_text weather))
    /\ (forall location_key days m ds,
           answers upstream (forecast_request cfg location_key) status
                   (JObj m) ->
           forecast_shape (JObj m) = true ->
           daily_forecasts m = Some ds ->
           outcome (get_forecast cfg upstream location_key days)
           = Ok (forecast_text_with "No headline" "" "None" (JObj m) ds))
    /\ shown None = "None".
Proof.
  intros cfg upstream status. repeat split.
  - intros lat lon data H Hshape.
    exact (location_shape_text _ _ _ _ _ _ H Hshape).
  - intros query top_match later H Hshape.
    rewrite (search_location_answered _ _ _ _ _ _ H).
    apply candidate_shape_text. exact Hshape.
  - intros location_key weather later H Hshape.
    exact (conditions_shape_text _ _ _ _ _ _ H Hshape).
  - intros location_key days m ds H Hshape Hds.
    exact (forecast_shape_text _ _ _ _ _ _ _ H Hshape Hds).
Qed.

Lemma absent_fields_render_as_placeholders_witness :
  outcome (get_location_by_coordinates sample_cfg
             (always 200 (JObj [("Key", JStr "208971");
                                ("LocalizedName", JStr "Jakarta")]))
             (FFinite true "62" 1) (FFinite false "1068" 3))
  = Ok "Location: Jakarta, None, None. Key: 208971".
Proof.
  apply (proj1 (absent_fields_render_as_placeholders sample_cfg
                  (always 200 (JObj [("Key", JStr "208971");
                                     ("LocalizedName", JStr "Jakarta")]))
                  200)
           (FFinite true "62" 1) (FFinite false "1068" 3)
           (JObj [("Key", JStr "208971"); ("LocalizedName", JStr "Jakarta")])).
  - split; reflexivity.
  - reflexivity.
Defined.

(** C10.  The line of a forecast day whose [Date] key is absent begins
    "- : ", the date showing as the empty text, while an absent
    [IconPhrase], [Minimum.Value] or [Maximum.Value] shows as [None]; the
    two renderings differ. *)
Theorem absent_date_renders_as_empty_text :
  forall (m : list (string * json)) (tr : list event),
    day_shape (JObj m) = true ->
    assoc "Date" m = None ->
    fst (forecast_line (JObj m) tr)
    = Ok ("- : " ++ shown (path (JObj m) ["Day"; "IconPhrase"])
            ++ ", Min: "
            ++ shown (path (JObj m) ["Temperature"; "Minimum"; "Value"])
            ++ "°C, Max: "
            ++ shown (path (JObj m) ["Temperature"; "Maximum"; "Value"])
            ++ "°C")
    /\ shown None = "None"
    /\ shown_date_or "" None <> shown None
    /\ (forall cfg location_key days,
           outcome (get_forecast cfg (always 200 bare_forecast)
                                 location_key days)
           = Ok ("Forecast Headline: No headline" ++ newline
                   ++ "- : None, Min: None°C, Max: None°C")).
Proof.
  intros m tr Hshape Hdate.
  split; [ | split; [reflexivity | split; [discriminate | ]]].
  - destruct (forecast_line_shape (JObj m) tr Hshape) as [tr' ->].
    unfold day_text, day_text_with. cbn [path fst]. rewrite Hdate.
    reflexivity.
  - intros cfg location_key days.
    apply (forecast_shape_text cfg (always 200 bare_forecast) location_key
             days 200 [("DailyForecasts", JArr [JObj []])] [JObj []]).
    + split; reflexivity.
    + reflexivity.
    + reflexivity.
Qed.

Lemma absent_date_renders_as_empty_text_witness :
  fst (forecast_line (JObj [("Day", JObj [("IconPhrase", JStr "Sunny")])]) [])
  = Ok "- : Sunny, Min: None°C, Max: None°C".
Proof.
  apply (absent_date_renders_as_empty_text
           [("Day", JObj [("IconPhrase", JStr "Sunny")])] []);
    reflexivity.
Defined.

(** ** The coordinates in the geoposition request *)

Lemma all_digits_append (s t : string) :
  all_digits (s ++ t) = all_digits s && all_digits t.
Proof.
  induction s as [ | c s IH]; cbn; [reflexivity | ].
  rewrite IH. apply andb_assoc.
Qed.

Lemma all_digits_repeat_zero (n : nat) : all_digits (repeat_char "0" n) = true.
Proof. induction n as [ | n IH]; cbn; [reflexivity | exact IH]. Qed.

Lemma length_repeat_char (c : ascii) (n : nat) :
  String.length (repeat_char c n) = n.
Proof. induction n as [ | n IH]; cbn; [reflexivity | now rewrite IH]. Qed.

Lemma all_digits_take (n : nat) (s : string) :
  all_digits s = true -> all_digits (str_take n s) = true.
Proof.
  revert s. induction n as [ | n IH]; intros [ | c s]; cbn; try reflexivity.
  intro H. apply andb_true_iff in H as [Hc Hs].
  rewrite Hc. cbn. apply IH. exact Hs.
Qed.

Lemma all_digits_drop (n : nat) (s : string) :
  all_digits s = true -> all_digits (str_drop n s) = true.
Proof.
  revert s. induction n as [ | n IH]; intros [ | c s]; cbn; try reflexivity;
    try (intro H; exact H).
  intro H. apply andb_true_iff in H as [_ Hs]. apply IH. exact Hs.
Qed.

Lemma length_take (n : nat) (s : string) :
  String.length (str_take n s) = Nat.min n (String.length s).
Proof.
  revert s. induction n as [ | n IH]; intros [ | c s]; cbn; try reflexivity.
  now rewrite IH.
Qed.

Lemma length_drop (n : nat) (s : string) :
  String.length (str_drop n s) = (String.length s - n)%nat.
Proof.
  revert s. induction n as [ | n IH]; intros [ | c s]; cbn; try reflexivity.
  apply IH.
Qed.

Lemma digit_run_intro (s : string) :
  all_digits s = true -> (0 < String.length s)%nat -> digit_run s = true.
Proof.
  intros Hall Hlen. unfold digit_run. rewrite Hall.
  destruct s; cbn in *; [lia | reflexivity].
Qed.

Lemma digit_run_elim (s : string) :
  digit_run s = true -> all_digits s = true /\ (0 < String.length s)%nat.
Proof.
  unfold digit_run. intro H. apply andb_true_iff in H as [Hne Hall].
  split; [exact Hall | ]. destruct s; cbn in *; [discriminate | lia].
Qed.

Lemma digits_have_no_point (s : string) :
  all_digits s = true -> has_char "." s = false.
Proof.
  induction s as [ | c s IH]; cbn; [reflexivity | ].
  intro H. apply andb_true_iff in H as [Hc Hs].
  rewrite (IH Hs), orb_false_r.
  destruct (Ascii.eqb_spec c "."); [subst c; discriminate | reflexivity].
Qed.

Lemma split_char_absent (sep : ascii) (s : string) :
  has_char sep s = false -> split_char sep s = [s].
Proof.
  induction s as [ | c s IH]; cbn; [reflexivity | ].
  intro H. apply orb_false_iff in H as [Hc Hs].
  rewrite Hc, (IH Hs). reflexivity.
Qed.

Lemma split_char_at (sep : ascii) (s t : string) :
  has_char sep s = false ->
  split_char sep (s ++ String sep t) = s :: split_char sep t.
Proof.
  induction s as [ | c s IH]; cbn.
  - intros _. rewrite Ascii.eqb_refl. reflexivity.
  - intro H. apply orb_false_iff in H as [Hc Hs].
    rewrite Hc, (IH Hs). reflexivity.
Qed.

Lemma strip_final_point_digits (s : string) :
  all_digits s = true -> strip_final_point s = s.
Proof.
  induction s as [ | c s IH]; cbn; [reflexivity | ].
  intro H. apply andb_true_iff in H as [Hc Hs].
  destruct s as [ | c' s].
  - destruct (Ascii.eqb_spec c "."); [subst c; discriminate | reflexivity].
  - rewrite (IH Hs). reflexivity.
Qed.

Lemma strip_final_point_cons (c : ascii) (s : string) :
  s <> "" -> strip_final_point (String c s) = String c (strip_final_point s).
Proof. destruct s; [contradiction | reflexivity]. Qed.

Lemma strip_final_point_append (s t : string) :
  t <> "" -> strip_final_point (s ++ t) = s ++ strip_final_point t.
Proof.
  intro Ht. induction s as [ | c s IH]; [reflexivity | ].
  cbn [append]. rewrite strip_final_point_cons, IH; [reflexivity | ].
  destruct s; cbn; [exact Ht | discriminate].
Qed.

(** A signed numeral with digits on both sides of the point is in plain
    decimal notation, and is left alone by the removal of a final point. *)
Lemma plain_decimal_intro (negative : bool) (whole fraction : string) :
  digit_run whole = true ->
  digit_run fraction = true ->
  plain_decimal (sign_str negative ++ whole ++ "." ++ fraction) = true
  /\ strip_final_point (whole ++ "." ++ fraction) = whole ++ "." ++ fraction.
Proof.
  intros Hw Hf.
  destruct (digit_run_elim _ Hw) as [Hw_all Hw_len].
  destruct (digit_run_elim _ Hf) as [Hf_all Hf_len].
  split.
  - unfold plain_decimal.
    assert (Hun : unsigned (sign_str negative ++ whole ++ "." ++ fraction)
                  = whole ++ "." ++ fraction).
    { destruct negative; cbn; [reflexivity | ].
      destruct whole as [ | c w]; cbn in *; [lia | ].
      apply andb_true_iff in Hw_all as [Hc _].
      destruct (Ascii.eqb_spec c "-"); [subst c; discriminate | reflexivity]. }
    rewrite Hun.
    change (whole ++ "." ++ fraction) with (whole ++ String "." fraction).
    rewrite split_char_at by (apply digits_have_no_point; exact Hw_all).
    rewrite split_char_absent by (apply digits_have_no_point; exact Hf_all).
    rewrite Hw, Hf. reflexivity.
  - rewrite strip_final_point_append.
    + change ("." ++ fraction) with (String "." fraction).
      rewrite strip_final_point_cons, strip_final_point_digits;
        [reflexivity | exact Hf_all | ].
      destruct fraction; cbn in *; [lia | discriminate].
    + discriminate.
Qed.

Lemma all_digits_zeros (n : Z) : all_digits (zeros n) = true.
Proof. apply all_digits_repeat_zero. Qed.

Lemma length_zeros (n : Z) : String.length (zeros n) = Z.to_nat n.
Proof. apply length_repeat_char. Qed.

(** Outside exponent notation the mantissa has digits on both sides of
    its point. *)
Lemma place_point_plain (digits : string) (decpt : Z) :
  digit_run digits = true ->
  exists whole fraction,
    digit_run whole = true
    /\ digit_run fraction = true
    /\ place_point digits decpt
         (Z.max (Z.of_nat (String.length digits)) (decpt + 1))
       = whole ++ "." ++ fraction.
Proof.
  intro Hd. destruct (digit_run_elim _ Hd) as [Hall Hlen].
  unfold place_point.
  destruct (decpt <=? 0) eqn:E1;
    [ | destruct (decpt <=? Z.of_nat (String.length digits)) eqn:E2].
  - exists "0", (zeros (- decpt) ++ digits
                   ++ zeros (Z.max (Z.of_nat (String.length digits)) (decpt + 1)
                             - Z.of_nat (String.length digits))).
    split; [reflexivity | split; [ | reflexivity]].
    apply digit_run_intro.
    + rewrite !all_digits_append, !all_digits_zeros, Hall. reflexivity.
    + rewrite !length_append. lia.
  - apply Z.leb_gt in E1. apply Z.leb_le in E2.
    exists (str_take (Z.to_nat decpt) digits),
           (str_drop (Z.to_nat decpt) digits
              ++ zeros (Z.max (Z.of_nat (String.length digits)) (decpt + 1)
                        - Z.of_nat (String.length digits))).
    split; [ | split; [ | reflexivity]].
    + apply digit_run_intro; [apply all_digits_take; exact Hall | ].
      rewrite length_take. lia.
    + apply digit_run_intro.
      * rewrite all_digits_append, all_digits_zeros, all_digits_drop
          by exact Hall.
        reflexivity.
      * rewrite length_append, length_drop, length_zeros. lia.
  - apply Z.leb_gt in E2.
    exists (digits ++ zeros (decpt - Z.of_nat (String.length digits))),
           (zeros (Z.max (Z.of_nat (String.length digits)) (decpt + 1) - decpt)).
    split; [ | split].
    + apply digit_run_intro.
      * rewrite all_digits_append, all_digits_zeros, Hall. reflexivity.
      * rewrite length_append. lia.
    + apply digit_run_intro; [apply all_digits_zeros | ].
      rewrite length_zeros. lia.
    + symmetry. apply append_assoc.
Qed.

Lemma float_repr_plain (x : pyfloat) :
  plain_range x = true -> plain_decimal (float_repr x) = true.
Proof.
  destruct x as [negative digits decpt | | ]; try discriminate.
  unfold plain_range. intro H. apply andb_true_iff in H as [Hd Hexp].
  apply negb_true_iff in Hexp.
  unfold float_repr. rewrite Hexp.
  destruct (place_point_plain digits decpt Hd) as (whole & fraction & Hw & Hf & ->).
  destruct (plain_decimal_intro negative whole fraction Hw Hf) as [Hplain ->].
  exact Hplain.
Qed.

(** Against C8 as stated: a latitude of 0.00001 is sent as [1e-05], which
    is not plain decimal notation. *)
Lemma small_latitude_is_sent_in_exponent_notation :
  exists req,
    http_gets (events (get_location_by_coordinates
                         sample_cfg (always 200 jakarta)
                         (FFinite false "1" (-4)) (FFinite false "1068" 3)))
    = [req]
    /\ param "q" (params req) = Some (Some "1e-05,106.8")
    /\ float_repr (FFinite false "1" (-4)) = "1e-05"
    /\ plain_decimal (float_repr (FFinite false "1" (-4))) = false.
Proof.
  eexists. split; [reflexivity | ]. repeat split.
Qed.


(** * Further properties of the tools *)

(** ** The requests of the two remaining tools *)

Lemma quiet_if {A} (b : bool) (m m' : M A) :
  quiet m -> quiet m' -> quiet (if b then m else m').
Proof. destruct b; auto. Qed.

(** [search_location] sends exactly one GET whatever the upstream does with
    it: to [/locations/v1/cities/search], following redirects, with the
    API key and with the query text passed on as it is. *)
Theorem search_sends_one_request :
  forall (cfg : config) (upstream : request -> reply) (query : string),
    http_gets (events (search_location cfg upstream query))
    = [search_request cfg query]
    /\ url (search_request cfg query)
       = env_str (BASE_URL cfg) ++ "/locations/v1/cities/search"
    /\ param "q" (params (search_request cfg query)) = Some (Some query)
    /\ param "apikey" (params (search_request cfg query))
       = Some (API_KEY cfg)
    /\ follow_redirects (search_request cfg query) = true.
Proof.
  intros cfg upstream query.
  split; [ | repeat split].
  unfold search_location.
  apply (one_request upstream). intro data.
  apply quiet_if; quiet_steps.
Qed.

(** [get_current_weather] sends exactly one GET whatever the upstream does
    with it: to [/currentconditions/v1/] followed by the location key as it
    was given, following redirects, with the API key as its only
    parameter. *)
Theorem conditions_sends_one_request :
  forall (cfg : config) (upstream : request -> reply) (location_key : string),
    http_gets (events (get_current_weather cfg upstream location_key))
    = [conditions_request cfg location_key]
    /\ url (conditions_request cfg location_key)
       = env_str (BASE_URL cfg) ++ "/currentconditions/v1/" ++ location_key
    /\ params (conditions_request cfg location_key)
       = [("apikey", API_KEY cfg)]
    /\ follow_redirects (conditions_request cfg location_key) = true.
Proof.
  intros cfg upstream location_key.
  split; [ | repeat split].
  unfold get_current_weather.
  apply (one_request upstream). intro data.
  apply quiet_if; quiet_steps.
Qed.

(** ** Failures before any field is read *)

Lemma failed_fetch_ends_call {A} (upstream : request -> reply) (u : string)
    (ps : list (string * option string)) (k : json -> M A) (e : exn) :
  fetch upstream u ps [] = (Raise e, [HttpGet (mkRequest u ps true)]) ->
  outcome (bind (fetch upstream u ps) k) = Raise e
  /\ events (bind (fetch upstream u ps) k) = [HttpGet (mkRequest u ps true)].
Proof.
  intro H. unfold outcome, events.
  rewrite (bind_raise _ _ _ _ _ H). split; reflexivity.
Qed.

Lemma fetch_unreachable (upstream : request -> reply) (u : string)
    (ps : list (string * option string)) :
  upstream (mkRequest u ps true) = Unreachable ->
  fetch upstream u ps [] = (Raise TransportError, [HttpGet (mkRequest u ps true)]).
Proof.
  intro H. unfold fetch, client_get, bind, emit; cbn. rewrite H. reflexivity.
Qed.

Lemma fetch_not_json (upstream : request -> reply) (u : string)
    (ps : list (string * option string)) (r : response) :
  upstream (mkRequest u ps true) = Responded r ->
  is_success (status_code r) = true ->
  body r = None ->
  fetch upstream u ps [] = (Raise JSONDecodeError, [HttpGet (mkRequest u ps true)]).
Proof.
  intros H Hok Hbody. unfold fetch, client_get, bind, emit; cbn.
  rewrite H. cbn. unfold raise_for_status. rewrite Hok. cbn.
  unfold response_json. rewrite Hbody. reflexivity.
Qed.

(** When the client gets no response, each of the four tools lets the
    transport error through: the call fails with it after its one request,
    with no second attempt and no field read. *)
Theorem transport_error_is_propagated :
  forall (cfg : config) (upstream : request -> reply),
    (forall lat lon,
        upstream (geoposition_request cfg lat lon) = Unreachable ->
        outcome (get_location_by_coordinates cfg upstream lat lon)
        = Raise TransportError
        /\ events (get_location_by_coordinates cfg upstream lat lon)
           = [HttpGet (geoposition_request cfg lat lon)])
    /\ (forall query,
           upstream (search_request cfg query) = Unreachable ->
           outcome (search_location cfg upstream query) = Raise TransportError
           /\ events (search_location cfg upstream query)
              = [HttpGet (search_request cfg query)])
    /\ (forall location_key,
           upstream (conditions_request cfg location_key) = Unreachable ->
           outcome (get_current_weather cfg upstream location_key)
           = Raise TransportError
           /\ events (get_current_weather cfg upstream location_key)
              = [HttpGet (conditions_request cfg location_key)])
    /\ (forall location_key days,
           upstream (forecast_request cfg location_key) = Unreachable ->
           outcome (get_forecast cfg upstream location_key days)
           = Raise TransportError
           /\ events (get_forecast cfg upstream location_key days)
              = [HttpGet (forecast_request cfg location_key)]).
Proof.
  intros cfg upstream.
  split; [ | split; [ | split]]; intros;
    apply failed_fetch_ends_call, fetch_unreachable; assumption.
Qed.

Lemma transport_error_is_propagated_witness :
  outcome (get_current_weather sample_cfg (fun _ => Unreachable) "208971")
  = Raise TransportError
  /\ events (get_current_weather sample_cfg (fun _ => Unreachable) "208971")
     = [HttpGet (conditions_request sample_cfg "208971")].
Proof.
  apply (transport_error_is_propagated sample_cfg (fun _ => Unreachable)).
  reflexivity.
Defined.

(** When a 2xx response has a body that is not JSON, each of the four
    tools fails with the decoding error of [response.json()], after its one
    request and with no field read. *)
Theorem invalid_json_is_propagated :
  forall (cfg : config) (upstream : request -> reply) (r : response),
    is_success (status_code r) = true ->
    body r = None ->
    (forall lat lon,
        upstream (geoposition_request cfg lat lon) = Responded r ->
        outcome (get_location_by_coordinates cfg upstream lat lon)
        = Raise JSONDecodeError
        /\ events (get_location_by_coordinates cfg upstream lat lon)
           = [HttpGet (geoposition_request cfg lat lon)])
    /\ (forall query,
           upstream (search_request cfg query) = Responded r ->
           outcome (search_location cfg upstream query) = Raise JSONDecodeError
           /\ events (search_location cfg upstream query)
              = [HttpGet (search_request cfg query)])
    /\ (forall location_key,
           upstream (conditions_request cfg location_key) = Responded r ->
           outcome (get_current_weather cfg upstream location_key)
           = Raise JSONDecodeError
           /\ events (get_current_weather cfg upstream location_key)
              = [HttpGet (conditions_request cfg location_key)])
    /\ (forall location_key days,
           upstream (forecast_request cfg location_key) = Responded r ->
           outcome (get_forecast cfg upstream location_key days)
           = Raise JSONDecodeError
           /\ events (get_forecast cfg upstream location_key days)
              = [HttpGet (forecast_request cfg location_key)]).
Proof.
  intros cfg upstream r Hok Hbody.
  split; [ | split; [ | split]]; intros;
    apply failed_fetch_ends_call, (fetch_not_json _ _ _ r); assumption.
Qed.

Lemma invalid_json_is_propagated_witness :
  outcome (search_location sample_cfg
             (fun _ => Responded (mkResponse 200 None)) "Jakarta")
  = Raise JSONDecodeError
  /\ events (search_location sample_cfg
               (fun _ => Responded (mkResponse 200 None)) "Jakarta")
     = [HttpGet (search_request sample_cfg "Jakarta")].
Proof.
  apply (invalid_json_is_propagated sample_cfg
           (fun _ => Responded (mkResponse 200 None)) (mkResponse 200 None)
           eq_refl eq_refl).
  reflexivity.
Defined.

(** ** Bodies of another kind than the one expected *)

(** [if not data] tests truth, not emptiness of a list: on any falsy 2xx
    body (the empty object, null, [false], zero, the empty text, as well as
    the empty array) [search_location] answers "No location found." and
    [get_current_weather] answers "No weather data available.", reading no
    field. *)
Theorem falsy_body_reads_as_empty_result :
  forall (cfg : config) (upstream : request -> reply) (status : Z)
         (data : json),
    truthy data = false ->
    (forall query,
        answers upstream (search_request cfg query) status data ->
        outcome (search_location cfg upstream query) = Ok "No location found."
        /\ field_gets (events (search_location cfg upstream query)) = [])
    /\ (forall location_key,
           answers upstream (conditions_request cfg location_key) status data ->
           outcome (get_current_weather cfg upstream location_key)
           = Ok "No weather data available."
           /\ field_gets (events (get_current_weather cfg upstream location_key))
              = []).
Proof.
  intros cfg upstream status data Hfalsy. split.
  - intros query H.
    unfold outcome, events, search_location, bind.
    rewrite (fetch_answered _ _ _ status data) by exact H.
    rewrite Hfalsy. cbn. split; reflexivity.
  - intros location_key H.
    unfold outcome, events, get_current_weather, bind.
    rewrite (fetch_answered _ _ _ status data) by exact H.
    rewrite Hfalsy. cbn. split; reflexivity.
Qed.

Lemma falsy_body_reads_as_empty_result_witness :
  outcome (search_location sample_cfg (always 200 (JObj [])) "Jakarta")
  = Ok "No location found."
  /\ outcome (get_current_weather sample_cfg (always 200 JNull) "208971")
     = Ok "No weather data available.".
Proof.
  split.
  - apply (proj1 (falsy_body_reads_as_empty_result
                    sample_cfg (always 200 (JObj [])) 200 (JObj []) eq_refl)).
    split; reflexivity.
  - apply (proj2 (falsy_body_reads_as_empty_result
                    sample_cfg (always 200 JNull) 200 JNull eq_refl)).
    split; reflexivity.
Defined.

(** A 2xx body that is a non-empty object, where a list of candidates or of
    observations was expected, makes [data[0]] fail: [search_location] and
    [get_current_weather] raise [KeyError] and return no text. *)
Theorem object_body_raises_key_error :
  forall (cfg : config) (upstream : request -> reply) (status : Z)
         (member : string * json) (members : list (string * json)),
    (forall query,
        answers upstream (search_request cfg query) status
                (JObj (member :: members)) ->
        outcome (search_location cfg upstream query) = Raise KeyError)
    /\ (forall location_key,
           answers upstream (conditions_request cfg location_key) status
                   (JObj (member :: members)) ->
           outcome (get_current_weather cfg upstream location_key)
           = Raise KeyError).
Proof.
  intros cfg upstream status member members. split.
  - intros query H. unfold search_location.
    rewrite (answered_outcome upstream _ _ status _ _ H). reflexivity.
  - intros location_key H. unfold get_current_weather.
    rewrite (answered_outcome upstream _ _ status _ _ H). reflexivity.
Qed.

Lemma object_body_raises_key_error_witness :
  outcome (search_location sample_cfg (always 200 jakarta) "Jakarta")
  = Raise KeyError.
Proof.
  apply (proj1 (object_body_raises_key_error
                  sample_cfg (always 200 jakarta) 200
                  ("Key", JStr "208971")
                  [("LocalizedName", JStr "Jakarta");
                   ("Country", JObj [("LocalizedName", JStr "Indonesia")])])).
  split; reflexivity.
Defined.

(** Where an object is expected and the 2xx response holds anything else
    (null, an array, a number, a text), the first [.get] fails: the body
    itself for [get_location_by_coordinates] and [get_forecast], element 0
    of the array for [search_location] and [get_current_weather].  The call
    raises [AttributeError]. *)
Theorem non_object_raises_attribute_error :
  forall (cfg : config) (upstream : request -> reply) (status : Z) (v : json),
    is_object v = false ->
    (forall lat lon,
        answers upstream (geoposition_request cfg lat lon) status v ->
        outcome (get_location_by_coordinates cfg upstream lat lon)
        = Raise AttributeError)
    /\ (forall location_key days,
           answers upstream (forecast_request cfg location_key) status v ->
           outcome (get_forecast cfg upstream location_key days)
           = Raise AttributeError)
    /\ (forall query later,
           answers upstream (search_request cfg query) status
                   (JArr (v :: later)) ->
           outcome (search_location cfg upstream query) = Raise AttributeError)
    /\ (forall location_key later,
           answers upstream (conditions_request cfg location_key) status
                   (JArr (v :: later)) ->
           outcome (get_current_weather cfg upstream location_key)
           = Raise AttributeError).
Proof.
  intros cfg upstream status v Hv.
  split; [ | split; [ | split]].
  - intros lat lon H. unfold get_location_by_coordinates.
    rewrite (answered_outcome upstream _ _ status _ _ H).
    destruct v; try discriminate; reflexivity.
  - intros location_key days H. unfold get_forecast.
    rewrite (answered_outcome upstream _ _ status _ _ H).
    destruct v; try discriminate; reflexivity.
  - intros query later H. unfold search_location.
    rewrite (answered_outcome upstream _ _ status _ _ H).
    destruct v; try discriminate; reflexivity.
  - intros location_key later H. unfold get_current_weather.
    rewrite (answered_outcome upstream _ _ status _ _ H).
    destruct v; try discriminate; reflexivity.
Qed.

Lemma non_object_raises_attribute_error_witness :
  outcome (get_location_by_coordinates sample_cfg (always 200 JNull)
             (FFinite true "62" 1) (FFinite false "1068" 3))
  = Raise AttributeError.
Proof.
  apply (proj1 (non_object_raises_attribute_error
                  sample_cfg (always 200 JNull) 200 JNull eq_refl)).
  split; reflexivity.
Defined.

(** ** The first observation of the current conditions *)

(** On a non-empty array [get_current_weather] reads element 0 only: two
    2xx responses that agree on it give the same result whatever follows
    it. *)
Theorem conditions_reads_first_element_only :
  forall (cfg : config) (upstream upstream' : request -> reply)
         (location_key : string) (status status' : Z)
         (weather : json) (later later' : list json),
    answers upstream (conditions_request cfg location_key) status
            (JArr (weather :: later)) ->
    answers upstream' (conditions_request cfg location_key) status'
            (JArr (weather :: later')) ->
    outcome (get_current_weather cfg upstream location_key)
    = outcome (get_current_weather cfg upstream' location_key).
Proof.
  intros cfg upstream upstream' location_key status status' weather
         later later' H H'.
  unfold get_current_weather.
  rewrite (answered_outcome upstream _ _ status _ _ H).
  rewrite (answered_outcome upstream' _ _ status' _ _ H').
  reflexivity.
Qed.

Lemma conditions_reads_first_element_only_witness :
  outcome (get_current_weather sample_cfg
             (always 200 (JArr [JObj [("WeatherText", JStr "Sunny")]; JNull]))
             "208971")
  = outcome (get_current_weather sample_cfg
               (always 200 (JArr [JObj [("WeatherText", JStr "Sunny")]]))
               "208971").
Proof.
  apply (conditions_reads_first_element_only sample_cfg
           (always 200 (JArr [JObj [("WeatherText", JStr "Sunny")]; JNull]))
           (always 200 (JArr [JObj [("WeatherText", JStr "Sunny")]]))
           "208971" 200 200
           (JObj [("WeatherText", JStr "Sunny")]) [JNull] []);
    split; reflexivity.
Defined.

(** ** The expected shape is what decides between text and failure *)

(** Case analysis on a nested key, in a goal that is settled by computation
    once the key is known. *)
Ltac settle_nested k m :=
  destruct (assoc k m) as [[ | | | | | | ] | ]; cbn;
  try (case_fields; reflexivity).

(** On a 2xx response the three single-record tools return their text
    exactly when the record has the expected shape, that is when it is an
    object whose nested keys ([AdministrativeArea], [Country],
    [Temperature], [Metric]) are absent or bound to objects; in every other
    case the call raises [AttributeError]. *)
Theorem shape_decides_outcome :
  forall (cfg : config) (upstream : request -> reply) (status : Z),
    (forall lat lon data,
        answers upstream (geoposition_request cfg lat lon) status data ->
        outcome (get_location_by_coordinates cfg upstream lat lon)
        = if location_shape data then Ok (location_text data)
          else Raise AttributeError)
    /\ (forall query top_match later,
           answers upstream (search_request cfg query) status
                   (JArr (top_match :: later)) ->
           outcome (search_location cfg upstream query)
           = if candidate_shape top_match then Ok (candidate_text top_match)
             else Raise AttributeError)
    /\ (forall location_key weather later,
           answers upstream (conditions_request cfg location_key) status
                   (JArr (weather :: later)) ->
           outcome (get_current_weather cfg upstream location_key)
           = if conditions_shape weather then Ok (conditions_text weather)
             else Raise AttributeError).
Proof.
  intros cfg upstream status. split; [ | split].
  - intros lat lon data H. unfold get_location_by_coordinates.
    rewrite (answered_outcome upstream _ _ status _ _ H).
    destruct data as [ | | | | | | m]; try reflexivity.
    unfold location_shape, object_or_absent, location_text, bind, dict_get.
    cbn.
    settle_nested "AdministrativeArea" m; settle_nested "Country" m.
  - intros query top_match later H. unfold search_location.
    rewrite (answered_outcome upstream _ _ status _ _ H).
    destruct top_match as [ | | | | | | m]; try reflexivity.
    unfold candidate_shape, object_or_absent, candidate_text, bind, dict_get.
    cbn.
    settle_nested "Country" m.
  - intros location_key weather later H. unfold get_current_weather.
    rewrite (answered_outcome upstream _ _ status _ _ H).
    destruct weather as [ | | | | | | m]; try reflexivity.
    unfold conditions_shape, object_or_absent, conditions_text, bind,
      dict_get.
    cbn.
    destruct (assoc "Temperature" m) as [[ | | | | | | t] | ]; cbn;
      try (case_fields; reflexivity).
    settle_nested "Metric" t.
Qed.

Lemma shape_decides_outcome_witness :
  outcome (get_current_weather sample_cfg
             (always 200 (JArr [JObj [("WeatherText", JStr "Sunny");
                                      ("Temperature", JStr "hot")]]))
             "208971")
  = Raise AttributeError.
Proof.
  apply (proj2 (proj2 (shape_decides_outcome
                         sample_cfg
                         (always 200 (JArr [JObj [("WeatherText", JStr "Sunny");
                                                  ("Temperature", JStr "hot")]]))
                         200))
           "208971"
           (JObj [("WeatherText", JStr "Sunny"); ("Temperature", JStr "hot")])
           []).
  split; reflexivity.
Defined.

(** ** A forecast is all or nothing *)

Ltac settle_day :=
  cbn; try discriminate; try (intros _; case_fields; eexists; reflexivity).

Lemma forecast_line_misshapen (day : json) (tr : list event) :
  day_shape day = false ->
  exists tr', forecast_line day tr = (Raise AttributeError, tr').
Proof.
  destruct day as [ | | | | | | m];
    try (intros _; eexists; reflexivity).
  unfold day_shape, object_or_absent, forecast_line, bind, dict_get.
  cbn.
  destruct (assoc "Date" m) as [[ | | | | s | | ] | ]; settle_day;
    [ destruct (split_char_T_head s) as [pieces ->] | ]; cbn;
    (destruct (assoc "Temperature" m) as [[ | | | | | | t] | ]; settle_day;
     [ destruct (assoc "Minimum" t) as [[ | | | | | | ] | ]; settle_day;
       destruct (assoc "Maximum" t) as [[ | | | | | | ] | ]; settle_day
     | ];
     destruct (assoc "Day" m) as [[ | | | | | | ] | ]; settle_day).
Qed.

Lemma for_each_forecast_lines_fail (days : list json) (tr : list event) :
  forallb day_shape days = false ->
  exists tr', for_each forecast_line days tr = (Raise AttributeError, tr').
Proof.
  revert tr. induction days as [ | day rest IH]; intros tr Hsome; cbn in *.
  - discriminate.
  - destruct (day_shape day) eqn:Hday; cbn in Hsome.
    + destruct (forecast_line_shape day tr Hday) as [tr1 E1].
      rewrite (bind_ok _ _ _ _ _ E1).
      destruct (IH tr1 Hsome) as [tr2 E2].
      rewrite (bind_raise _ _ _ _ _ E2). eexists. reflexivity.
    + destruct (forecast_line_misshapen day tr Hday) as [tr1 E1].
      rewrite (bind_raise _ _ _ _ _ E1). eexists. reflexivity.
Qed.

(** On a 2xx object whose [DailyForecasts] is absent or an array,
    [get_forecast] returns the headline and one line per day, in the order
    received, exactly when the headline and every day have the expected
    shape; one misshapen day anywhere in the array makes the whole call
    raise [AttributeError], with no partial forecast. *)
Theorem forecast_is_all_or_nothing :
  forall (cfg : config) (upstream : request -> reply)
         (location_key : string) (days status : Z)
         (m : list (string * json)) (ds : list json),
    answers upstream (forecast_request cfg location_key) status (JObj m) ->
    daily_forecasts m = Some ds ->
    outcome (get_forecast cfg upstream location_key days)
    = if object_or_absent m "Headline" && forallb day_shape ds
      then Ok (join newline (headline_text (JObj m) :: map day_text ds))
      else Raise AttributeError.
Proof.
  intros cfg upstream location_key days status m ds H Hds.
  destruct (object_or_absent m "Headline" && forallb day_shape ds) eqn:Hshape.
  - apply (forecast_shape_text _ _ _ _ _ _ _ H); [ | exact Hds].
    unfold forecast_shape. rewrite Hds. exact Hshape.
  - unfold get_forecast.
    rewrite (answered_outcome upstream _ _ status _ _ H).
    erewrite bind_ok by apply dict_get_obj.
    unfold object_or_absent in Hshape.
    unfold daily_forecasts in Hds.
    destruct (assoc "Headline" m) as [[ | | | | | | h] | ];
      try reflexivity;
      cbn in Hshape;
      (erewrite bind_ok by apply dict_get_obj);
      (erewrite bind_ok by apply dict_get_obj);
      (destruct (assoc "DailyForecasts" m) as [[ | | | | | items | ] | ];
       try discriminate; injection Hds as <-);
      (erewrite bind_ok by reflexivity);
      try discriminate;
      match goal with
      | |- fst (bind (for_each forecast_line ?l) _ ?tr) = _ =>
          destruct (for_each_forecast_lines_fail l tr Hshape) as [tr' E]
      end;
      rewrite (bind_raise _ _ _ _ _ E); reflexivity.
Qed.

Lemma forecast_is_all_or_nothing_witness :
  outcome (get_forecast sample_cfg
             (always 200 (JObj [("DailyForecasts",
                                 JArr [JObj [("Date", JStr "2024-05-01T07:00:00")];
                                       JNull])]))
             "208971" 5)
  = Raise AttributeError.
Proof.
  apply (forecast_is_all_or_nothing sample_cfg
           (always 200 (JObj [("DailyForecasts",
                               JArr [JObj [("Date", JStr "2024-05-01T07:00:00")];
                                     JNull])]))
           "208971" 5 200
           [("DailyForecasts",
             JArr [JObj [("Date", JStr "2024-05-01T07:00:00")]; JNull])]
           [JObj [("Date", JStr "2024-05-01T07:00:00")]; JNull]).
  - split; reflexivity.
  - reflexivity.
Defined.

(** The default of [data.get("DailyForecasts", [])] covers a missing key
    only: when the key is bound to null, a number or a boolean and the
    headline is in order, the [for] loop cannot start and [get_forecast]
    raises [TypeError]. *)
Theorem scalar_daily_forecasts_raises_type_error :
  forall (cfg : config) (upstream : request -> reply)
         (location_key : string) (days status : Z)
         (m : list (string * json)) (v : json),
    answers upstream (forecast_request cfg location_key) status (JObj m) ->
    object_or_absent m "Headline" = true ->
    assoc "DailyForecasts" m = Some v ->
    iterable v = false ->
    outcome (get_forecast cfg upstream location_key days) = Raise TypeError.
Proof.
  intros cfg upstream location_key days status m v H Hhead Hdf Hv.
  unfold get_forecast.
  rewrite (answered_outcome upstream _ _ status _ _ H).
  erewrite bind_ok by apply dict_get_obj.
  unfold object_or_absent in Hhead.
  destruct (assoc "Headline" m) as [[ | | | | | | h] | ]; try discriminate;
    (erewrite bind_ok by apply dict_get_obj);
    (erewrite bind_ok by apply dict_get_obj);
    rewrite Hdf; destruct v; try discriminate; reflexivity.
Qed.

Lemma scalar_daily_forecasts_raises_type_error_witness :
  outcome (get_forecast sample_cfg
             (always 200 (JObj [("DailyForecasts", JNull)])) "208971" 5)
  = Raise TypeError.
Proof.
  apply (scalar_daily_forecasts_raises_type_error sample_cfg
           (always 200 (JObj [("DailyForecasts", JNull)])) "208971" 5 200
           [("DailyForecasts", JNull)] JNull).
  - split; reflexivity.
  - reflexivity.
  - reflexivity.
  - reflexivity.
Defined.

(** ** The date of a forecast day *)



(** ** Exponent notation in the geoposition query *)

Lemma split_char_one (sep : ascii) (s piece : string) :
  split_char sep s = [piece] -> s = piece.
Proof.
  revert piece. induction s as [ | c s IH]; cbn; intros piece H.
  - injection H as <-. reflexivity.
  - destruct (Ascii.eqb c sep).
    + destruct s; cbn in H; [discriminate | ].
      destruct (Ascii.eqb a sep); [discriminate | ].
      destruct (split_char sep s); discriminate.
    + destruct (split_char sep s) as [ | p ps] eqn:E.
      * injection H as <-. destruct s; cbn in E; [discriminate | ].
        destruct (Ascii.eqb a sep); [discriminate | ].
        destruct (split_char sep s); discriminate.
      * injection H as <- ->. rewrite (IH p eq_refl). reflexivity.
Qed.

Lemma split_char_two (sep : ascii) (s whole fraction : string) :
  split_char sep s = [whole; fraction] -> s = whole ++ String sep fraction.
Proof.
  revert whole. induction s as [ | c s IH]; cbn; intros whole H.
  - discriminate.
  - destruct (Ascii.eqb_spec c sep) as [-> | Hc].
    + injection H as <- H. rewrite (split_char_one _ _ _ H). reflexivity.
    + destruct (split_char sep s) as [ | p ps] eqn:E; [discriminate | ].
      injection H as <- ->. rewrite (IH p eq_refl). reflexivity.
Qed.

Lemma has_char_append (c : ascii) (s t : string) :
  has_char c (s ++ t) = has_char c s || has_char c t.
Proof.
  induction s as [ | c' s IH]; cbn; [reflexivity | ].
  rewrite IH. apply orb_assoc.
Qed.

Lemma digits_have_no_e (s : string) :
  all_digits s = true -> has_char "e" s = false.
Proof.
  induction s as [ | c s IH]; cbn; [reflexivity | ].
  intro H. apply andb_true_iff in H as [Hc Hs].
  rewrite (IH Hs), orb_false_r.
  destruct (Ascii.eqb_spec c "e"); [subst c; discriminate | reflexivity].
Qed.

Lemma plain_decimal_has_no_e (s : string) :
  plain_decimal s = true -> has_char "e" s = false.
Proof.
  unfold plain_decimal.
  destruct (split_char "." (unsigned s)) as [ | whole [ | fraction [ | ]]] eqn:E;
    try discriminate.
  intro H. apply andb_true_iff in H as [Hw Hf].
  apply digit_run_elim in Hw as [Hw _]. apply digit_run_elim in Hf as [Hf _].
  apply split_char_two in E.
  assert (Hun : has_char "e" (unsigned s) = false).
  { rewrite E, has_char_append. cbn.
    rewrite (digits_have_no_e _ Hw), (digits_have_no_e _ Hf). reflexivity. }
  destruct s as [ | c s]; [reflexivity | ].
  cbn in Hun |- *. destruct (Ascii.eqb_spec c "-") as [-> | Hc].
  - cbn. exact Hun.
  - exact Hun.
Qed.

Lemma float_repr_exponent (x : pyfloat) :
  well_formed_float x = true ->
  plain_range x = false ->
  plain_decimal (float_repr x) = false.
Proof.
  destruct x as [negative digits decpt | [ | ] | ]; try reflexivity.
  unfold well_formed_float, plain_range. intros Hd Hrange.
  rewrite Hd in Hrange. cbn in Hrange. apply negb_false_iff in Hrange.
  unfold float_repr. rewrite Hrange.
  destruct (plain_decimal _) eqn:Hplain; [ | reflexivity].
  apply plain_decimal_has_no_e in Hplain.
  rewrite !has_char_append in Hplain. cbn in Hplain.
  rewrite !orb_true_r in Hplain. discriminate.
Qed.


(** ** A headline text that is there *)

(** "No headline" stands for a missing [Text] key only: when [Headline] is
    an object that binds [Text] to some value, any text [get_forecast]
    returns starts with that value as Python prints it, so a [Text] bound
    to null gives the line "Forecast Headline: None". *)
Theorem bound_headline_text_is_printed :
  forall (cfg : config) (upstream : request -> reply)
         (location_key : string) (days status : Z)
         (m h : list (string * json)) (v : json) (text : string),
    answers upstream (forecast_request cfg location_key) status (JObj m) ->
    assoc "Headline" m = Some (JObj h) ->
    assoc "Text" h = Some v ->
    outcome (get_forecast cfg upstream location_key days) = Ok text ->
    first_line_is ("Forecast Headline: " ++ py_str v) text
    /\ py_str JNull = "None".
Proof.
  intros cfg upstream location_key days status m h v text H Hhead Htext Hok.
  split; [ | reflexivity].
  pose proof (forecast_first_line _ _ _ _ _ _ _ H Hok) as Hfirst.
  unfold headline_text, headline_text_with in Hfirst.
  cbn [path] in Hfirst. rewrite Hhead, Htext in Hfirst. exact Hfirst.
Qed.

Lemma bound_headline_text_is_printed_witness :
  first_line_is ("Forecast Headline: " ++ py_str JNull)
                "Forecast Headline: None"
  /\ py_str JNull = "None".
Proof.
  apply (bound_headline_text_is_printed sample_cfg
           (always 200 (JObj [("Headline", JObj [("Text", JNull)])]))
           "208971" 5 200
           [("Headline", JObj [("Text", JNull)])] [("Text", JNull)] JNull
           "Forecast Headline: None").
  - split; reflexivity.
  - reflexivity.
  - reflexivity.
  - reflexivity.
Defined.

(** ** The magnitude of a coordinate and the notation of its rendering *)

Lemma digit_value_bounds (c : ascii) :
  is_digit c = true -> 0 <= digit_value c <= 9.
Proof.
  unfold is_digit, digit_value. intro H.
  apply andb_true_iff in H as [Hlo Hhi].
  apply N.leb_le in Hlo, Hhi. lia.
Qed.

Lemma digit_value_positive (c : ascii) :
  is_digit c = true -> Ascii.eqb c "0" = false -> 1 <= digit_value c.
Proof.
  intros Hd Hz. pose proof (digit_value_bounds c Hd) as Hb.
  destruct (Z.eq_dec (digit_value c) 0) as [E | ]; [ | lia].
  unfold digit_value in E.
  assert (Hc : N_of_ascii c = 48%N) by lia.
  apply (f_equal ascii_of_N) in Hc. rewrite ascii_N_embedding in Hc.
  subst c. discriminate.
Qed.

Lemma digits_value_from_acc (acc : Z) (s : string) :
  digits_value_from acc s
  = acc * 10 ^ Z.of_nat (String.length s) + digits_value s.
Proof.
  unfold digits_value. revert acc.
  induction s as [ | c s IH]; intro acc; cbn [digits_value_from String.length].
  - cbn. lia.
  - rewrite (IH (10 * acc + digit_value c)), (IH (10 * 0 + digit_value c)).
    rewrite Nat2Z.inj_succ, Z.pow_succ_r by lia. ring.
Qed.

Lemma digits_value_cons (c : ascii) (s : string) :
  digits_value (String c s)
  = digit_value c * 10 ^ Z.of_nat (String.length s) + digits_value s.
Proof.
  unfold digits_value at 1. cbn [digits_value_from].
  rewrite digits_value_from_acc. f_equal.
Qed.

Lemma digits_value_bounds (s : string) :
  all_digits s = true ->
  0 <= digits_value s < 10 ^ Z.of_nat (String.length s).
Proof.
  induction s as [ | c s IH]; intro H.
  - cbn. lia.
  - cbn in H. apply andb_true_iff in H as [Hc Hs].
    specialize (IH Hs). pose proof (digit_value_bounds c Hc) as Hd.
    rewrite digits_value_cons.
    cbn [String.length]. rewrite Nat2Z.inj_succ, Z.pow_succ_r by lia.
    nia.
Qed.

(** Digits that do not start with 0 write a number with as many digits. *)
Lemma leading_digit_bounds (s : string) :
  digit_run s = true ->
  starts_with_zero s = false ->
  10 ^ (Z.of_nat (String.length s) - 1) <= digits_value s
  /\ digits_value s < 10 ^ Z.of_nat (String.length s).
Proof.
  intros Hrun Hlead. apply digit_run_elim in Hrun as [Hall _].
  split; [ | apply digits_value_bounds; exact Hall].
  destruct s as [ | c s]; [discriminate | ].
  cbn in Hall, Hlead. apply andb_true_iff in Hall as [Hc Hs].
  pose proof (digit_value_positive c Hc Hlead) as Hd.
  pose proof (digits_value_bounds s Hs) as Hb.
  rewrite digits_value_cons. cbn [String.length].
  replace (Z.of_nat (S (String.length s)) - 1)
    with (Z.of_nat (String.length s)) by lia.
  nia.
Qed.

(** With [len] digits and no leading zero, [n * 10^(decpt - len)] is below
    [10^b] exactly when [decpt <= b]. *)
Lemma below_power_decpt (n len decpt b : Z) :
  1 <= len ->
  10 ^ (len - 1) <= n < 10 ^ len ->
  below_power n (decpt - len) b = (decpt <=? b).
Proof.
  intros Hlen [Hlo Hhi]. unfold below_power, compare_with_power.
  set (shift := Z.max 0 (Z.max (- (decpt - len)) (- b))).
  assert (Hs1 : 0 <= decpt - len + shift) by lia.
  assert (Hs2 : 0 <= b + shift) by lia.
  assert (Hp : 0 < 10 ^ (decpt - len + shift))
    by (apply Z.pow_pos_nonneg; lia).
  destruct (Z.leb_spec decpt b) as [Hle | Hgt].
  - assert (Hup : n * 10 ^ (decpt - len + shift) < 10 ^ (b + shift)).
    { apply Z.lt_le_trans with (10 ^ (decpt + shift)).
      - replace (decpt + shift) with (len + (decpt - len + shift)) by lia.
        rewrite (Z.pow_add_r 10 len (decpt - len + shift)) by lia.
        apply Z.mul_lt_mono_pos_r; [exact Hp | exact Hhi].
      - apply Z.pow_le_mono_r; lia. }
    apply Z.compare_lt_iff in Hup. rewrite Hup. reflexivity.
  - assert (Hdown : 10 ^ (b + shift) <= n * 10 ^ (decpt - len + shift)).
    { apply Z.le_trans with (10 ^ (decpt - 1 + shift)).
      - apply Z.pow_le_mono_r; lia.
      - replace (decpt - 1 + shift)
          with ((len - 1) + (decpt - len + shift)) by lia.
        rewrite (Z.pow_add_r 10 (len - 1) (decpt - len + shift)) by lia.
        apply Z.mul_le_mono_nonneg_r; [lia | exact Hlo]. }
    destruct (Z.compare_spec (n * 10 ^ (decpt - len + shift))
                             (10 ^ (b + shift))); [reflexivity | lia | reflexivity].
Qed.

(** The magnitude is in the plain range exactly when [repr] does not
    switch to exponent notation. *)
Lemma magnitude_in_plain_range_decpt (negative : bool) (digits : string)
    (decpt : Z) :
  normalised (FFinite negative digits decpt) = true ->
  magnitude_in_plain_range (FFinite negative digits decpt)
  = negb (use_exp decpt).
Proof.
  unfold normalised, magnitude_in_plain_range, use_exp. intro H.
  apply andb_true_iff in H as [Hrun Hnorm].
  destruct (String.eqb_spec digits "0") as [-> | Hne].
  - apply Z.eqb_eq in Hnorm. subst decpt. reflexivity.
  - apply negb_true_iff in Hnorm.
    destruct (leading_digit_bounds digits Hrun Hnorm) as [Hlo Hhi].
    destruct (digit_run_elim _ Hrun) as [_ Hlen].
    assert (Hpos : 0 < 10 ^ (Z.of_nat (String.length digits) - 1))
      by (apply Z.pow_pos_nonneg; lia).
    rewrite !below_power_decpt by (try split; lia).
    destruct (Z.eqb_spec (digits_value digits) 0); [lia | ].
    cbn [orb].
    destruct (Z.leb_spec decpt (-4)), (Z.leb_spec decpt 16),
      (Z.ltb_spec 16 decpt); cbn; try reflexivity; lia.
Qed.

Lemma all_digits_string_of_uint (u : Decimal.uint) :
  all_digits (NilEmpty.string_of_uint u) = true.
Proof. induction u; cbn; auto. Qed.

Lemma int_str_digit_run (z : Z) : 0 <= z -> digit_run (int_str z) = true.
Proof.
  intro Hz. unfold int_str. destruct z as [ | p | p]; [reflexivity | | lia].
  cbn. unfold digit_run.
  destruct (Pos.to_uint p) as [ | u | u | u | u | u | u | u | u | u | u] eqn:E;
    cbn; try reflexivity; apply all_digits_string_of_uint.
Qed.

Lemma exp_str_signed (e : Z) :
  signed_digits (exp_str e) = true /\ has_char "e" (exp_str e) = false.
Proof.
  unfold exp_str.
  pose proof (int_str_digit_run (Z.abs e) (Z.abs_nonneg e)) as Hrun.
  destruct (digit_run_elim _ Hrun) as [Hall Hlen].
  pose proof (digits_have_no_e _ Hall) as Hno.
  assert (Hpad : digit_run ("0" ++ int_str (Z.abs e)) = true
                 /\ has_char "e" ("0" ++ int_str (Z.abs e)) = false).
  { cbn. rewrite Hall, Hno. split; reflexivity. }
  destruct (e <? 0), (Z.abs e <? 10); cbn [append signed_digits has_char];
    cbn [Ascii.eqb Bool.eqb orb andb];
    first [ exact Hpad | split; [exact Hrun | exact Hno] ].
Qed.

Lemma has_char_cons (x c : ascii) (s : string) :
  has_char x (String c s) = Ascii.eqb c x || has_char x s.
Proof. reflexivity. Qed.

Lemma append_empty_r (s : string) : s ++ "" = s.
Proof. induction s as [ | c s IH]; cbn; [reflexivity | now rewrite IH]. Qed.

(** The mantissa of the exponent notation: the first digit, then the
    others, if any, after a point. *)
Lemma exponent_mantissa (digits : string) :
  digit_run digits = true ->
  exists c fraction,
    strip_final_point
      (place_point digits 1 (Z.max (Z.of_nat (String.length digits)) 1))
    = String c fraction
    /\ is_digit c = true
    /\ mantissa (String c fraction) = true
    /\ has_char "e" (String c fraction) = false.
Proof.
  intro Hrun. destruct (digit_run_elim _ Hrun) as [Hall Hlen].
  destruct digits as [ | c rest]; [cbn in Hlen; lia | ].
  cbn in Hall. apply andb_true_iff in Hall as [Hc Hrest].
  assert (Hce : Ascii.eqb c "e" = false)
    by (destruct (Ascii.eqb_spec c "e"); [subst c; discriminate | reflexivity]).
  unfold place_point.
  replace (1 <=? 0) with false by reflexivity.
  replace (1 <=? Z.of_nat (String.length (String c rest))) with true
    by (symmetry; apply Z.leb_le; lia).
  replace (Z.max (Z.of_nat (String.length (String c rest))) 1
           - Z.of_nat (String.length (String c rest))) with 0 by lia.
  change (Z.to_nat 1) with 1%nat. cbn [str_take str_drop zeros].
  change (Z.to_nat 0) with 0%nat. cbn [repeat_char append].
  rewrite append_empty_r.
  destruct rest as [ | c' rest'].
  - exists c, "". cbn. rewrite Hc, Hce. repeat split.
  - exists c, (String "." (String c' rest')).
    rewrite strip_final_point_cons by discriminate.
    rewrite strip_final_point_cons by discriminate.
    rewrite strip_final_point_digits by exact Hrest.
    split; [reflexivity | ]. split; [exact Hc | ].
    split.
    + cbn [mantissa]. rewrite Hc. cbn [Ascii.eqb Bool.eqb andb].
      unfold digit_run. rewrite Hrest. reflexivity.
    + rewrite 2 has_char_cons, Hce.
      rewrite (digits_have_no_e _ Hrest). reflexivity.
Qed.

Lemma float_repr_exponent_notation (negative : bool) (digits : string)
    (decpt : Z) :
  digit_run digits = true ->
  use_exp decpt = true ->
  exponent_notation (float_repr (FFinite negative digits decpt)) = true.
Proof.
  intros Hrun Hexp. unfold float_repr. rewrite Hexp.
  destruct (exponent_mantissa digits Hrun) as (c & fraction & -> & Hc & Hm & Hno).
  destruct (exp_str_signed (decpt - 1)) as [Hsigned Hno'].
  unfold exponent_notation.
  assert (Hun : unsigned (sign_str negative ++ String c fraction ++ "e"
                            ++ exp_str (decpt - 1))
                = String c fraction ++ String "e" (exp_str (decpt - 1))).
  { destruct negative; cbn; [reflexivity | ].
    destruct (Ascii.eqb_spec c "-"); [subst c; discriminate | reflexivity]. }
  rewrite Hun.
  rewrite split_char_at by exact Hno.
  rewrite split_char_absent by exact Hno'.
  rewrite Hm, Hsigned. reflexivity.
Qed.

(** The rendering of a coordinate, by the kind and magnitude of the
    float. *)
Lemma float_repr_notation (x : pyfloat) :
  normalised x = true -> notation_follows_magnitude x.
Proof.
  destruct x as [negative digits decpt | negative | ]; try reflexivity.
  intro Hnorm. unfold notation_follows_magnitude.
  rewrite (magnitude_in_plain_range_decpt _ _ _ Hnorm).
  unfold normalised in Hnorm. apply andb_true_iff in Hnorm as [Hrun _].
  destruct (use_exp decpt) eqn:Hexp; cbn [negb].
  - split.
    + apply float_repr_exponent_notation; assumption.
    + apply float_repr_exponent; [exact Hrun | ].
      unfold plain_range. rewrite Hrun, Hexp. reflexivity.
  - assert (Hplain : plain_decimal (float_repr (FFinite negative digits decpt))
                     = true).
    { apply float_repr_plain. unfold plain_range. rewrite Hrun, Hexp.
      reflexivity. }
    split; [exact Hplain | ].
    apply plain_decimal_has_no_e in Hplain.
    unfold exponent_notation.
    destruct (split_char "e" (unsigned (float_repr (FFinite negative digits decpt))))
      as [ | m [ | e [ | ]]] eqn:E; try reflexivity.
    apply split_char_two in E.
    assert (Hhas : has_char "e"
                     (unsigned (float_repr (FFinite negative digits decpt)))
                   = true).
    { rewrite E, has_char_append. cbn. apply orb_true_r. }
    assert (Hsub : forall s, has_char "e" (unsigned s) = true ->
                             has_char "e" s = true).
    { intros [ | c s]; cbn; [discriminate | ].
      destruct (Ascii.eqb_spec c "-") as [-> | ]; cbn; [auto | auto]. }
    apply Hsub in Hhas. rewrite Hhas in Hplain. discriminate.
Qed.

(** C8, as the code has it.  [get_location_by_coordinates] sends exactly
    one GET request, to the geoposition search path, whose [q] parameter
    is Python's [repr] of the latitude, a comma and the [repr] of the
    longitude, with no other separator.  The [repr] of a coordinate is in
    plain decimal notation exactly when the float is zero or finite with a
    magnitude of at least 0.0001 and below 1e16; for every other finite
    float it is in exponent notation (as in [1e-05]), and for an infinity
    or a NaN it is [inf], [-inf] or [nan].  ([normalised] holds of every
    float: it says that the digits are the ones the shortest-digits
    conversion produces.) *)
Theorem geoposition_query_is_repr_of_coordinates :
  forall (cfg : config) (upstream : request -> reply) (lat lon : pyfloat),
    http_gets (events (get_location_by_coordinates cfg upstream lat lon))
    = [geoposition_request cfg lat lon]
    /\ url (geoposition_request cfg lat lon)
       = env_str (BASE_URL cfg) ++ "/locations/v1/cities/geoposition/search"
    /\ param "q" (params (geoposition_request cfg lat lon))
       = Some (Some (float_repr lat ++ "," ++ float_repr lon))
    /\ (normalised lat = true -> notation_follows_magnitude lat)
    /\ (normalised lon = true -> notation_follows_magnitude lon).
Proof.
  intros cfg upstream lat lon.
  split; [ | split; [reflexivity | split; [reflexivity | ]]].
  - unfold get_location_by_coordinates.
    apply (one_request upstream). intro data. quiet_steps.
  - split; apply float_repr_notation.
Qed.

Lemma geoposition_query_is_repr_of_coordinates_witness :
  (exponent_notation (float_repr (FFinite false "1" (-4))) = true
   /\ plain_decimal (float_repr (FFinite false "1" (-4))) = false)
  /\ (plain_decimal (float_repr (FFinite false "1068" 3)) = true
      /\ exponent_notation (float_repr (FFinite false "1068" 3)) = false).
Proof.
  destruct (geoposition_query_is_repr_of_coordinates
              sample_cfg (always 200 jakarta)
              (FFinite false "1" (-4)) (FFinite false "1068" 3))
    as (_ & _ & _ & Hlat & Hlon).
  split; [exact (Hlat eq_refl) | exact (Hlon eq_refl)].
Defined.
